(** * Mass Mobilization dashboard: loader, filter engine and aggregations

    A shallow embedding of [app.py].  The script is a linear pipeline
    (load, filter, aggregate, render); the data frame is a list of row
    records, a nullable spreadsheet cell is an [option], a pandas exception
    is a constructor of [Exception] carried by the [Exc] monad, a float is
    a binary64, and every group-by is an association list in the order
    pandas produces it. *)

From Stdlib Require Import ZArith List Bool String Ascii Lia Permutation Sorted.
From Stdlib Require Import QArith DecimalString Floats.
Import ListNotations.

Close Scope Q_scope.
Close Scope float_scope.
Local Open Scope string_scope.
Local Open Scope Z_scope.

(* ------------------------------------------------------------------ *)
(** * Exceptions *)

(** The exceptions the script can let escape.  [app.py] has no
    [try]/[except]: whatever pandas raises ends the run. *)
Inductive Exception : Type :=
| FileNotFoundError      (* read_excel: no file at the path *)
| BadZipFile             (* read_excel: bytes that are no workbook *)
| ValueError             (* read_excel: format not recognised; int(nan) *)
| IntCastingNaNError     (* astype(int) on a column that still holds NaN *)
| OverflowError.         (* astype(int) on an integer too large to cast *)

Inductive Exc (A : Type) : Type :=
| Raise (e : Exception)
| Return (a : A).
Arguments Raise {A} e.
Arguments Return {A} a.

Definition bind {A B : Type} (m : Exc A) (k : A -> Exc B) : Exc B :=
  match m with
  | Raise e => Raise e
  | Return a => k a
  end.

Notation "x <- m ;; k" := (bind m (fun x => k))
  (at level 61, m at next level, right associativity).

Fixpoint mapM {A B : Type} (f : A -> Exc B) (l : list A) : Exc (list B) :=
  match l with
  | [] => Return []
  | a :: t => b <- f a ;; bs <- mapM f t ;; Return (b :: bs)
  end.

(* ------------------------------------------------------------------ *)
(** * Cells and columns *)

(** [Series.fillna]: a missing cell takes the replacement, which is itself
    a cell (line 80 fills from the [year] column, which may be blank). *)
Definition fillna {A : Type} (x : option A) (d : option A) : option A :=
  match x with
  | Some v => Some v
  | None => d
  end.

(** The integers a numeric column holds exactly whatever dtype pandas
    gives it: binary64 has them (a column with a blank is float64) and so
    has int64, the target of [astype(int)]. *)
Definition exact_int (z : Z) : bool :=
  (- 2 ^ 53 <=? z) && (z <=? 2 ^ 53).

Definition isna {A : Type} (x : option A) : bool :=
  match x with
  | None => true
  | Some _ => false
  end.

Definition notna {A : Type} (x : option A) : bool := negb (isna x).

(** [Series.isin(values)] for a text column: the values offered by a
    multiselect are strings, so a missing cell is never a member. *)
Definition isin (x : option string) (values : list string) : bool :=
  match x with
  | Some s => existsb (String.eqb s) values
  | None => false
  end.

(** [Series.between(a, b)]: inclusive on both ends, false on NaN. *)
Definition between (x : option Z) (a b : Z) : bool :=
  match x with
  | Some y => (a <=? y) && (y <=? b)
  | None => false
  end.

(** [Series.dropna()] as a list of the present values. *)
Fixpoint dropna {A : Type} (l : list (option A)) : list A :=
  match l with
  | [] => []
  | Some v :: t => v :: dropna t
  | None :: t => dropna t
  end.

(* ------------------------------------------------------------------ *)
(** * Sorting and distinct values *)

Section Sorting.
Context {A : Type}.
Variable leb : A -> A -> bool.

(** A stable insertion sort: of two elements the order does not
    separate, the one that came first stays first. *)
Fixpoint insert (x : A) (l : list A) : list A :=
  match l with
  | [] => [x]
  | y :: t => if leb x y then x :: y :: t else y :: insert x t
  end.

Fixpoint sort (l : list A) : list A :=
  match l with
  | [] => []
  | x :: t => insert x (sort t)
  end.
End Sorting.

Section Unique.
Context {A : Type}.
Variable eq_dec : forall x y : A, {x = y} + {x <> y}.

(** [Series.unique()]: distinct values in order of first appearance. *)
Fixpoint unique (l : list A) : list A :=
  match l with
  | [] => []
  | x :: t => x :: remove eq_dec x (unique t)
  end.
End Unique.

(* ------------------------------------------------------------------ *)
(** * Data model *)

(** A participants cell is free-form: blank, a number, or text. *)
Inductive Cell : Type :=
| Blank
| Number (q : Q)
| Text (s : string).

Record Timestamp : Type := mkTimestamp {
  ts_year : Z;
  ts_month : Z;
  ts_day : Z
}.

(** One row of the sheet as [read_excel] delivers it. *)
Record RawRow : Type := mkRawRow {
  raw_id : Z;
  raw_country : option string;
  raw_region : option string;
  raw_year : option Z;
  raw_startyear : option Z;
  raw_startmonth : option Z;
  raw_startday : option Z;
  raw_location : option string;
  raw_participants : Cell;
  raw_participants_category : option string;
  raw_protesteridentity : option string;
  raw_protesterdemand1 : option string;
  raw_stateresponse1 : option string;
  raw_protesterviolence : option Z
}.

(** One row of [df] after [load_data]. *)
Record Row : Type := mkRow {
  id : Z;
  country : option string;
  region : option string;
  year : option Z;
  startyear : Z;
  startmonth : Z;
  startday : Z;
  start_date : option Timestamp;
  location : option string;
  participants : Cell;
  participants_numeric : option Q;
  participants_category : option string;
  protesteridentity : option string;
  protesterdemand1 : option string;
  stateresponse1 : option string;
  protesterviolence : Z;
  violence_label : option string
}.

(** What is found at [Path(__file__).parent / "mass mob minimal.xlsx"]:
    nothing, bytes that [read_excel] cannot read (the exception it raises
    depends on the bytes), or a sheet. *)
Inductive Workbook : Type :=
| NoFile
| Unreadable (e : Exception)
| Sheet (rows : list RawRow).

(* ------------------------------------------------------------------ *)
(** * Data loading (lines 72-96) *)

(** [pd.read_excel(path)]. *)
Definition read_excel (wb : Workbook) : Exc (list RawRow) :=
  match wb with
  | NoFile => Raise FileNotFoundError
  | Unreadable e => Raise e
  | Sheet rows => Return rows
  end.

(** [Series.map({0: "Peaceful", 1: "Violent"})]: a key outside the
    dictionary maps to NaN. *)
Definition map_violence_label (v : Z) : option string :=
  if v =? 0 then Some "Peaceful"
  else if v =? 1 then Some "Violent"
  else None.

(** ** Dates and numbers *)

Definition is_leap (y : Z) : bool :=
  ((y mod 4 =? 0) && negb (y mod 100 =? 0)) || (y mod 400 =? 0).

Definition days_in_month (y m : Z) : Z :=
  if m =? 2 then (if is_leap y then 29 else 28)
  else if (m =? 4) || (m =? 6) || (m =? 9) || (m =? 11) then 30
  else 31.

(** The date of the Gregorian calendar with these parts, if there is
    one. *)
Definition calendar_date (y m d : Z) : option Timestamp :=
  if (1 <=? m) && (m <=? 12) && (1 <=? d) && (d <=? days_in_month y m)
  then Some (mkTimestamp y m d)
  else None.

(** Date parts that [to_datetime] reads as they stand: pandas adds them
    up to [year * 10000 + month * 100 + day] and parses the eight digits
    as year, month and day, and every date of these years fits a
    nanosecond timestamp. *)
Definition date_parts_in_range (y m d : Z) : bool :=
  (1678 <=? y) && (y <=? 2261) && (1 <=? m) && (m <=? 12)
  && (1 <=? d) && (d <=? 31).

(** A text cell that is a plain unsigned decimal, short enough for a
    float to hold its value exactly. *)
Definition plain_number (s : string) : option Z :=
  if (0 <? String.length s)%nat && (String.length s <=? 15)%nat
  then option_map Z.of_uint (NilEmpty.uint_of_string s)
  else None.

Section Loader.
(** Library behaviour that the script reaches but the model does not
    decide.  [astype_int_inexact col z]: what [astype(int)] makes of an
    integer [z] of column [col] outside [exact_int] (it depends on the
    dtype pandas inferred for the column: rounding, wrap-around or an
    exception).  [to_datetime_other] and [to_numeric_other]: what the two
    converters, called with [errors="coerce"], make of date parts out of
    range and of text that is no plain number; they answer with a missing
    value instead of raising. *)
Variable astype_int_inexact : string -> Z -> Exc Z.
Variable to_datetime_other : Z -> Z -> Z -> option Timestamp.
Variable to_numeric_other : string -> option Q.

(** [df[col].astype(int)] on one cell: NaN cannot be cast. *)
Definition astype_int (col : string) (x : option Z) : Exc Z :=
  match x with
  | Some z => if exact_int z then Return z else astype_int_inexact col z
  | None => Raise IntCastingNaNError
  end.

(** [pd.to_datetime(df[["year", "month", "day"]], errors="coerce")]. *)
Definition to_datetime_coerce (y m d : Z) : option Timestamp :=
  if date_parts_in_range y m d then calendar_date y m d
  else to_datetime_other y m d.

(** [pd.to_numeric(cell, errors="coerce")]. *)
Definition to_numeric_coerce (c : Cell) : option Q :=
  match c with
  | Blank => None
  | Number q => Some q
  | Text s => match plain_number s with
              | Some z => Some (inject_Z z)
              | None => to_numeric_other s
              end
  end.

(** Lines 78-94 for one row.  The source works column by column; the
    only step that can raise is an [astype(int)], and it raises for the
    whole frame, which [mapM] below reproduces. *)
Definition normalize_row (r : RawRow) : Exc Row :=
  sm <- astype_int "startmonth" (fillna (raw_startmonth r) (Some 1)) ;;
  sd <- astype_int "startday" (fillna (raw_startday r) (Some 1)) ;;
  sy <- astype_int "startyear" (fillna (raw_startyear r) (raw_year r)) ;;
  pv <- astype_int "protesterviolence"
          (fillna (raw_protesterviolence r) (Some 0)) ;;
  Return {| id := raw_id r;
            country := raw_country r;
            region := raw_region r;
            year := raw_year r;
            startyear := sy;
            startmonth := sm;
            startday := sd;
            start_date := to_datetime_coerce sy sm sd;
            location := raw_location r;
            participants := raw_participants r;
            participants_numeric := to_numeric_coerce (raw_participants r);
            participants_category := raw_participants_category r;
            protesteridentity := raw_protesteridentity r;
            protesterdemand1 := raw_protesterdemand1 r;
            stateresponse1 := raw_stateresponse1 r;
            protesterviolence := pv;
            violence_label := map_violence_label pv |}.

Definition load_data (wb : Workbook) : Exc (list Row) :=
  raw <- read_excel wb ;;
  mapM normalize_row raw.
End Loader.

(* ------------------------------------------------------------------ *)
(** * Sidebar filters (lines 104-143) *)

Inductive ViolenceOpt : Type :=
| All
| PeacefulOnly
| ViolentOnly.

(** The widget values the filter reads. *)
Record Sidebar : Type := mkSidebar {
  year_range : Z * Z;
  selected_regions : list string;
  selected_countries : list string;
  selected_demands : list string;
  selected_responses : list string;
  violence_opts : ViolenceOpt
}.

(** [sorted(column.dropna().unique())]. *)
Definition options_of (col : list (option string)) : list string :=
  sort String.leb (unique string_dec (dropna col)).

Definition all_regions (df : list Row) : list string :=
  options_of (map region df).

Definition available_countries (df : list Row) (regions : list string)
  : list string :=
  options_of (map country (filter (fun r => isin (region r) regions) df)).

Definition all_demands (df : list Row) : list string :=
  options_of (map protesterdemand1 df).

Definition all_responses (df : list Row) : list string :=
  options_of (map stateresponse1 df).

(** The sidebar as it comes up: every multiselect at its default (all
    options), the radio on "All". *)
Definition default_sidebar (df : list Row) (yr : Z * Z) : Sidebar :=
  {| year_range := yr;
     selected_regions := all_regions df;
     selected_countries := available_countries df (all_regions df);
     selected_demands := all_demands df;
     selected_responses := all_responses df;
     violence_opts := All |}.

(* ------------------------------------------------------------------ *)
(** * Apply filters (lines 148-161) *)

Definition base_mask (s : Sidebar) (r : Row) : bool :=
  between (year r) (fst (year_range s)) (snd (year_range s))
  && isin (region r) (selected_regions s)
  && isin (country r) (selected_countries s)
  && (isin (protesterdemand1 r) (selected_demands s)
      || isna (protesterdemand1 r))
  && (isin (stateresponse1 r) (selected_responses s)
      || isna (stateresponse1 r)).

Definition mask (s : Sidebar) (r : Row) : bool :=
  match violence_opts s with
  | PeacefulOnly => base_mask s r && (protesterviolence r =? 0)
  | ViolentOnly => base_mask s r && (protesterviolence r =? 1)
  | All => base_mask s r
  end.

Definition filtered (df : list Row) (s : Sidebar) : list Row :=
  filter (mask s) df.

(* ------------------------------------------------------------------ *)
(** * Loader contract *)

(** The value a nullable integer cell takes once [fillna(d)] has run. *)
Definition or_default (x : option Z) (d : Z) : Z :=
  match x with
  | Some v => v
  | None => d
  end.

(** A row gives [astype(int)] a start year to cast: its own, or the
    [year] that fills it. *)
Definition has_start_year (r : RawRow) : bool :=
  notna (raw_startyear r) || notna (raw_year r).

(** The integer cells of a row that the loader casts are all exact. *)
Definition cell_exact (x : option Z) : bool :=
  match x with
  | Some z => exact_int z
  | None => true
  end.

Definition cells_exact (r : RawRow) : bool :=
  cell_exact (raw_startmonth r) && cell_exact (raw_startday r)
  && cell_exact (raw_startyear r) && cell_exact (raw_year r)
  && cell_exact (raw_protesterviolence r).

(** [y], [m], [d] name a day of the calendar. *)
Definition is_date (y m d : Z) : Prop :=
  1 <= m <= 12 /\ 1 <= d <= days_in_month y m.

(** What the normalization rules of the loader say of one raw row [rr]
    and its row [r] in [df]. *)
Definition normalized (rr : RawRow) (r : Row) : Prop :=
  startmonth r = or_default (raw_startmonth rr) 1
  /\ startday r = or_default (raw_startday rr) 1
  /\ Some (startyear r) = match raw_startyear rr with
                          | Some y => Some y
                          | None => raw_year rr
                          end
  /\ (date_parts_in_range (startyear r) (startmonth r) (startday r) = true ->
      (is_date (startyear r) (startmonth r) (startday r) ->
       start_date r
       = Some (mkTimestamp (startyear r) (startmonth r) (startday r)))
      /\ (~ is_date (startyear r) (startmonth r) (startday r) ->
          start_date r = None))
  /\ match raw_participants rr with
     | Blank => participants_numeric r = None
     | Number q => participants_numeric r = Some q
     | Text s => forall z, plain_number s = Some z ->
                           participants_numeric r = Some (inject_Z z)
     end
  /\ id r = raw_id rr /\ country r = raw_country rr
  /\ region r = raw_region rr /\ year r = raw_year rr
  /\ location r = raw_location rr /\ participants r = raw_participants rr
  /\ participants_category r = raw_participants_category rr
  /\ protesteridentity r = raw_protesteridentity rr
  /\ protesterdemand1 r = raw_protesterdemand1 rr
  /\ stateresponse1 r = raw_stateresponse1 rr.

(* ------------------------------------------------------------------ *)
(** * Filter contract *)

(** The violence constraint of the filter engine. *)
Definition violence_constraint (v : ViolenceOpt) (r : Row) : Prop :=
  match v with
  | All => True
  | PeacefulOnly => protesterviolence r = 0
  | ViolentOnly => protesterviolence r = 1
  end.

(** A text cell holds one of the selected values. *)
Definition selected (x : option string) (values : list string) : Prop :=
  exists v, x = Some v /\ In v values.

(** The filter engine's contract, clause by clause. *)
Definition satisfies (s : Sidebar) (r : Row) : Prop :=
  (exists y, year r = Some y
             /\ fst (year_range s) <= y /\ y <= snd (year_range s))
  /\ selected (region r) (selected_regions s)
  /\ selected (country r) (selected_countries s)
  /\ (selected (protesterdemand1 r) (selected_demands s)
      \/ protesterdemand1 r = None)
  /\ (selected (stateresponse1 r) (selected_responses s)
      \/ stateresponse1 r = None)
  /\ violence_constraint (violence_opts s) r.

(* ------------------------------------------------------------------ *)
(** * Numbers *)

(** The float nearest to an integer (ties to even): what numpy makes of
    an [int64], or Python of an [int], that meets a float in arithmetic. *)
Definition float_of_Z (z : Z) : float :=
  SF2Prim (binary_normalize prec emax z 0 false).

(** numpy's [int64 / int]: both sides become floats and the quotient is
    the binary64 one; a zero divisor gives NaN or an infinity (with a
    warning), it does not raise. *)
Definition true_divide (a b : Z) : float :=
  PrimFloat.div (float_of_Z a) (float_of_Z b).

Definition fmul (x k : float) : float := PrimFloat.mul x k.

(** numpy's [rint]: the nearest integer, ties to the even one.  Below
    [2^52] in magnitude, adding and taking away [2^52] rounds a float to
    an integer in the rounding mode of the arithmetic, which is that one;
    from [2^52] on every float is an integer. *)
Definition two52 : float := float_of_Z (2 ^ 52).

Definition rint (x : float) : float :=
  if PrimFloat.leb two52 (PrimFloat.abs x) then x
  else if PrimFloat.ltb (float_of_Z 0) x
       then PrimFloat.sub (PrimFloat.add x two52) two52
  else if PrimFloat.ltb x (float_of_Z 0)
       then PrimFloat.opp
              (PrimFloat.sub (PrimFloat.add (PrimFloat.opp x) two52) two52)
  else x.

(** [Series.round(1)], as numpy computes it: scale by 10, round to an
    integer, scale back. *)
Definition round1 (x : float) : float :=
  PrimFloat.div (rint (PrimFloat.mul x (float_of_Z 10))) (float_of_Z 10).

(** [int(x)] on the result of [Series.min()] / [Series.max()]. *)
Definition int_of (x : option Z) : Exc Z :=
  match x with
  | Some z => Return z
  | None => Raise ValueError
  end.

(** [str] of an integer, as an f-string prints it. *)
Definition str (z : Z) : string := NilEmpty.string_of_int (Z.to_int z).

(* ------------------------------------------------------------------ *)
(** * KPI row (lines 179-190) *)

Definition len {A : Type} (l : list A) : Z := Z.of_nat (List.length l).

(** [Series.sum()] of an integer column. *)
Definition sum (col : list Z) : Z := fold_right Z.add 0 col.

(** [Series.nunique()]: distinct present values. *)
Definition nunique (col : list (option string)) : Z :=
  len (unique string_dec (dropna col)).

(** [Series.min()] and [Series.max()]: NaN cells are skipped, and a column
    with nothing left gives NaN. *)
Definition series_min (col : list (option Z)) : option Z :=
  match dropna col with
  | [] => None
  | x :: t => Some (fold_right Z.min x t)
  end.

Definition series_max (col : list (option Z)) : option Z :=
  match dropna col with
  | [] => None
  | x :: t => Some (fold_right Z.max x t)
  end.

Definition violent_pct (f : list Row) : float :=
  if len f =? 0 then float_of_Z 0
  else fmul (true_divide (sum (map protesterviolence f)) (len f))
            (float_of_Z 100).

Definition year_span (f : list Row) : Exc string :=
  if len f =? 0 then Return "N/A"
  else
    lo <- int_of (series_min (map year f)) ;;
    hi <- int_of (series_max (map year f)) ;;
    Return (str lo ++ "–" ++ str hi).

Record KPIs : Type := mkKPIs {
  total_protests : Z;
  countries : Z;
  regions : Z;
  violent_percent : float;
  span : string
}.

Definition kpi_row (f : list Row) : Exc KPIs :=
  let k1 := len f in
  let k2 := nunique (map country f) in
  let k3 := nunique (map region f) in
  let k4 := violent_pct f in
  k5 <- year_span f ;;
  Return {| total_protests := k1; countries := k2; regions := k3;
            violent_percent := k4; span := k5 |}.
(* ------------------------------------------------------------------ *)
(** * Group-by *)

Section GroupBy.
Context {K : Type}.
Variable eq_dec : forall x y : K, {x = y} + {x <> y}.
Variable leb : K -> K -> bool.

(** [groupby(keys).size()]: one entry per observed key, keys in sorted
    order.  The caller drops the rows with a missing key first, as
    pandas does. *)
Definition groupby_size (keys : list K) : list (K * nat) :=
  map (fun k => (k, count_occ eq_dec keys k)) (sort leb (unique eq_dec keys)).

Fixpoint lookup {V : Type} (k : K) (t : list (K * V)) : option V :=
  match t with
  | [] => None
  | (k', v) :: rest => if eq_dec k k' then Some v else lookup k rest
  end.
End GroupBy.

(** Order on composite keys: first component, then second. *)
Definition lex_leb {A B : Type} (cmp : A -> A -> comparison)
    (leb : B -> B -> bool) (p q : A * B) : bool :=
  match cmp (fst p) (fst q) with
  | Lt => true
  | Gt => false
  | Eq => leb (snd p) (snd q)
  end.

Definition country_year_dec (x y : string * Z) : {x = y} + {x <> y}.
Proof. decide equality; [apply Z.eq_dec | apply string_dec]. Defined.

Definition region_demand_dec (x y : string * string) : {x = y} + {x <> y}.
Proof. decide equality; apply string_dec. Defined.

(** Both cells of a two-column key, when neither is missing. *)
Definition key2 {A B : Type} (x : option A) (y : option B) : option (A * B) :=
  match x, y with
  | Some a, Some b => Some (a, b)
  | _, _ => None
  end.

(* ------------------------------------------------------------------ *)
(** * Violence rate over time (lines 366-371) *)

Record ViolTrend : Type := mkViolTrend {
  vt_year : Z;
  total : Z;
  violent : Z;
  violence_rate : float
}.

Definition in_year (y : Z) (r : Row) : bool :=
  match year r with
  | Some y' => y' =? y
  | None => false
  end.

Definition viol_trend_row (f : list Row) (y : Z) : ViolTrend :=
  let g := filter (in_year y) f in
  let t := len g in
  let v := sum (map protesterviolence g) in
  {| vt_year := y; total := t; violent := v;
     violence_rate := round1 (fmul (true_divide v t) (float_of_Z 100)) |}.

Definition viol_trend (f : list Row) : list ViolTrend :=
  map (viol_trend_row f) (sort Z.leb (unique Z.eq_dec (dropna (map year f)))).

(** The record of year [y] in the trend table, if it has one. *)
Definition trend_of_year (y : Z) (t : list ViolTrend) : option ViolTrend :=
  find (fun e => vt_year e =? y) t.

(** Rows of the filtered set flagged violent. *)
Definition is_violent (r : Row) : bool := protesterviolence r =? 1.

(* ------------------------------------------------------------------ *)
(** * Country x Year heatmap (lines 419-429) *)

(** [Series.value_counts()]: present values with their counts, largest
    count first; equal counts keep their order of first appearance. *)
Definition value_counts (col : list (option string)) : list (string * nat) :=
  sort (fun a b => Nat.leb (snd b) (snd a))
       (map (fun k => (k, count_occ string_dec (dropna col) k))
            (unique string_dec (dropna col))).

Definition top_countries_list (f : list Row) (top_n : nat) : list string :=
  map fst (firstn top_n (value_counts (map country f))).

Definition heat_df (f : list Row) (top_n : nat) : list (string * Z * nat) :=
  let sub := filter (fun r => isin (country r) (top_countries_list f top_n)) f in
  groupby_size country_year_dec (lex_leb String.compare Z.leb)
    (dropna (map (fun r => key2 (country r) (year r)) sub)).

(** A pivot table: the column labels, and per index label one cell per
    column. *)
Record Pivot (V : Type) : Type := mkPivot {
  columns : list Z;
  rows : list (string * list V)
}.
Arguments mkPivot {V} _ _.
Arguments columns {V} _.
Arguments rows {V} _.

(** [DataFrame.pivot(index="country", columns="year", values="protests")]:
    index and columns are the sorted distinct labels, and a combination
    with no entry is NaN. *)
Definition pivot (t : list (string * Z * nat)) : Pivot (option nat) :=
  let index := sort String.leb (unique string_dec (map (fun e => fst (fst e)) t)) in
  let cols := sort Z.leb (unique Z.eq_dec (map (fun e => snd (fst e)) t)) in
  mkPivot cols
    (map (fun c => (c, map (fun y => lookup country_year_dec (c, y) t) cols)) index).

(** [DataFrame.fillna(0)]. *)
Definition fillna0 (p : Pivot (option nat)) : Pivot nat :=
  mkPivot (columns p)
    (map (fun row => (fst row, map (fun x => match x with
                                             | Some n => n
                                             | None => 0%nat
                                             end) (snd row))) (rows p)).

(** [sum(axis=1)] for one row. *)
Definition row_sum (cells : list nat) : nat := fold_right Nat.add 0%nat cells.

(** [p.loc[p.sum(axis=1).sort_values(ascending=True).index]]. *)
Definition sort_by_total (p : Pivot nat) : Pivot nat :=
  mkPivot (columns p)
    (sort (fun a b => Nat.leb (row_sum (snd a)) (row_sum (snd b))) (rows p)).

Definition heat_pivot (f : list Row) (top_n : nat) : Pivot nat :=
  sort_by_total (fillna0 (pivot (heat_df f top_n))).

(** Filtered rows of one country, and of one country in one year. *)
Definition of_country (c : string) (r : Row) : bool :=
  match country r with
  | Some c' => String.eqb c' c
  | None => false
  end.

Definition country_total (f : list Row) (c : string) : nat :=
  List.length (filter (of_country c) f).

Definition cell_count (f : list Row) (c : string) (y : Z) : nat :=
  List.length (filter (fun r => of_country c r && in_year y r) f).

(* ------------------------------------------------------------------ *)
(** * Demands by region (lines 448-453) *)

(** [DataFrame.dropna(subset=["protesterdemand1"])]. *)
Definition dropna_demand (f : list Row) : list Row :=
  filter (fun r => notna (protesterdemand1 r)) f.

Definition demand_region_df (f : list Row) : list (string * string * nat) :=
  groupby_size region_demand_dec (lex_leb String.compare String.leb)
    (dropna (map (fun r => key2 (region r) (protesterdemand1 r))
                 (dropna_demand f))).

Definition region_demand_count (f : list Row) (g d : string) : nat :=
  List.length (filter (fun r =>
    match region r, protesterdemand1 r with
    | Some g', Some d' => String.eqb g' g && String.eqb d' d
    | _, _ => false
    end) f).
(* ------------------------------------------------------------------ *)
(** * Sample data *)

(** The library parameters of the loader for the examples.  No example
    has an inexact integer or date parts out of range, and the text cells
    of the examples that are no plain numbers ("1000s") are no numbers at
    all: [to_numeric] gives NaN for them. *)
Definition no_inexact_cell : string -> Z -> Exc Z :=
  fun _ _ => Raise OverflowError.

Definition no_other_date : Z -> Z -> Z -> option Timestamp :=
  fun _ _ _ => None.

Definition not_a_number : string -> option Q := fun _ => None.

Definition load_example : Workbook -> Exc (list Row) :=
  load_data no_inexact_cell no_other_date not_a_number.

(** A protest in Canada with no start year, month or violence flag
    recorded, a day that is not in the month, and a free-text size. *)
Definition raw_canada : RawRow :=
  {| raw_id := 201990001;
     raw_country := Some "Canada";
     raw_region := Some "North America";
     raw_year := Some 1990;
     raw_startyear := None;
     raw_startmonth := Some 2;
     raw_startday := Some 30;
     raw_location := Some "national";
     raw_participants := Text "1000s";
     raw_participants_category := None;
     raw_protesteridentity := Some "unspecified";
     raw_protesterdemand1 := Some "political behavior, process";
     raw_stateresponse1 := Some "ignore";
     raw_protesterviolence := None |}.

(** The same event with neither [year] nor [startyear] recorded. *)
Definition raw_no_year : RawRow :=
  {| raw_id := 201990002;
     raw_country := Some "Canada";
     raw_region := Some "North America";
     raw_year := None;
     raw_startyear := None;
     raw_startmonth := Some 7;
     raw_startday := Some 1;
     raw_location := Some "Montreal";
     raw_participants := Number (inject_Z 1000);
     raw_participants_category := None;
     raw_protesteridentity := None;
     raw_protesterdemand1 := Some "labor wage dispute";
     raw_stateresponse1 := Some "ignore";
     raw_protesterviolence := Some 0 |}.

(** A sheet whose violence column holds a 2. *)
Definition raw_flag_two : RawRow :=
  {| raw_id := 201990003;
     raw_country := Some "Canada";
     raw_region := Some "North America";
     raw_year := Some 1990;
     raw_startyear := Some 1990;
     raw_startmonth := Some 7;
     raw_startday := Some 1;
     raw_location := Some "Montreal";
     raw_participants := Text "500";
     raw_participants_category := Some "100-999";
     raw_protesteridentity := None;
     raw_protesterdemand1 := None;
     raw_stateresponse1 := Some "arrests";
     raw_protesterviolence := Some 2 |}.

(** Rows of a loaded table, by what the filter and the aggregations read. *)
Definition event (n : Z) (c g : option string) (y : option Z)
    (d s : option string) (v : Z) : Row :=
  {| id := n; country := c; region := g; year := y;
     startyear := or_default y 1990; startmonth := 1; startday := 1;
     start_date := calendar_date (or_default y 1990) 1 1;
     location := None; participants := Blank;
     participants_numeric := None; participants_category := None;
     protesteridentity := None;
     protesterdemand1 := d; stateresponse1 := s;
     protesterviolence := v;
     violence_label := map_violence_label v |}.

Definition sample_df : list Row :=
  [ event 1 (Some "India") (Some "Asia") (Some 2000)
      (Some "land farm issue") (Some "ignore") 0;
    event 2 (Some "India") (Some "Asia") (Some 2000)
      None (Some "arrests") 1;
    event 3 (Some "France") (Some "Europe") (Some 2002)
      (Some "labor wage dispute") None 0;
    event 4 (Some "India") (Some "Asia") (Some 2002)
      (Some "labor wage dispute") (Some "ignore") 1;
    event 5 None (Some "Asia") (Some 2001)
      (Some "land farm issue") (Some "ignore") 0;
    event 6 (Some "Kenya") None (Some 2001)
      None None 0 ].

Definition sample_sidebar : Sidebar := default_sidebar sample_df (2000, 2002).

(** The sidebar with every region deselected. *)
Definition no_region_sidebar : Sidebar :=
  {| year_range := (2000, 2002);
     selected_regions := [];
     selected_countries := [];
     selected_demands := all_demands sample_df;
     selected_responses := all_responses sample_df;
     violence_opts := All |}.

(** The KPI row of a set with no rows. *)
Definition empty_kpis : KPIs :=
  {| total_protests := 0; countries := 0; regions := 0;
     violent_percent := float_of_Z 0; span := "N/A" |}.

(** The sidebar after the demand multiselect is set to [ds]. *)
Definition with_demands (s : Sidebar) (ds : list string) : Sidebar :=
  {| year_range := year_range s;
     selected_regions := selected_regions s;
     selected_countries := selected_countries s;
     selected_demands := ds;
     selected_responses := selected_responses s;
     violence_opts := violence_opts s |}.

(** One year with 80 events, 23 of them violent. *)
Definition trend_sample : list Row :=
  (repeat (event 7 (Some "India") (Some "Asia") (Some 2005)
             None None 1) 23
   ++ repeat (event 8 (Some "India") (Some "Asia") (Some 2005)
                None None 0) 57)%list.

(** Six countries with 3, 6, 1, 5, 2 and 4 events over three years. *)
Definition heat_sample : list Row :=
  (repeat (event 11 (Some "Algeria") (Some "Africa") (Some 2000) None None 0) 3
   ++ repeat (event 12 (Some "Bolivia") (Some "South America") (Some 2001)
                None None 0) 4
   ++ repeat (event 13 (Some "Bolivia") (Some "South America") (Some 2002)
                None None 1) 2
   ++ [event 14 (Some "Chile") (Some "South America") (Some 2000) None None 0]
   ++ repeat (event 15 (Some "Denmark") (Some "Europe") (Some 2002)
                None None 0) 5
   ++ repeat (event 16 (Some "Egypt") (Some "Africa") (Some 2001)
                None None 0) 2
   ++ repeat (event 17 (Some "France") (Some "Europe") (Some 2000)
                None None 1) 4)%list.

Definition heat_sidebar : Sidebar := default_sidebar heat_sample (2000, 2002).

(* ------------------------------------------------------------------ *)
(** * Year slider (lines 108-114) *)

(** [year_min, year_max = int(df["year"].min()), int(df["year"].max())]. *)
Definition year_bounds (df : list Row) : Exc (Z * Z) :=
  lo <- int_of (series_min (map year df)) ;;
  hi <- int_of (series_max (map year df)) ;;
  Return (lo, hi).

(** The sidebar as the script first draws it: the slider's default value
    is the whole span of years, every multiselect has all its options. *)
Definition initial_sidebar (df : list Row) : Exc Sidebar :=
  yr <- year_bounds df ;;
  Return (default_sidebar df yr).

(** The sidebar after the violence radio is set to [v]. *)
Definition with_violence (s : Sidebar) (v : ViolenceOpt) : Sidebar :=
  {| year_range := year_range s;
     selected_regions := selected_regions s;
     selected_countries := selected_countries s;
     selected_demands := selected_demands s;
     selected_responses := selected_responses s;
     violence_opts := v |}.

(* ------------------------------------------------------------------ *)
(** * Protests over time (lines 207-212) *)

Definition year_region_dec (x y : Z * string) : {x = y} + {x <> y}.
Proof. decide equality; [apply string_dec | apply Z.eq_dec]. Defined.

(** [groupby(["year", "region"]).size().reset_index(name="count")
    .sort_values("year")]. *)
Definition time_df (f : list Row) : list (Z * string * nat) :=
  sort (fun a b => Z.leb (fst (fst a)) (fst (fst b)))
    (groupby_size year_region_dec (lex_leb Z.compare String.leb)
       (dropna (map (fun r => key2 (year r) (region r)) f))).

Definition year_region_count (f : list Row) (y : Z) (g : string) : nat :=
  List.length (filter (fun r =>
    match year r, region r with
    | Some y', Some g' => (y' =? y) && String.eqb g' g
    | _, _ => false
    end) f).

(* ------------------------------------------------------------------ *)
(** * Counts by region, country, demand, response, violence
      (lines 231, 256-261, 283-288, 315-320, 340) *)

Definition region_df (f : list Row) : list (string * nat) :=
  value_counts (map region f).

Definition top_countries (f : list Row) : list (string * nat) :=
  firstn 15 (value_counts (map country f)).

(** [column.dropna().value_counts()]. *)
Definition demand_df (f : list Row) : list (string * nat) :=
  value_counts (map Some (dropna (map protesterdemand1 f))).

Definition resp_df (f : list Row) : list (string * nat) :=
  value_counts (map Some (dropna (map stateresponse1 f))).

Definition viol_df (f : list Row) : list (string * nat) :=
  value_counts (map violence_label f).

(** Rows with a given value in a text column. *)
Definition count_where (col : Row -> option string) (v : string)
    (f : list Row) : nat :=
  List.length (filter (fun r => match col r with
                                | Some v' => String.eqb v' v
                                | None => false
                                end) f).

(* ------------------------------------------------------------------ *)
(** * Participant size distribution (lines 389-396) *)

Definition cat_order : list string :=
  ["50-99"; "100-999"; "1000-1999"; "2000-4999"; "5000-10000"; ">10000"].

(** [Series.reindex(labels)]: one entry per label, in the order given; a
    label the series does not have gets NaN, and an entry of the series
    whose label is not asked for is left out. *)
Definition reindex (labels : list string) (t : list (string * nat))
  : list (string * option nat) :=
  map (fun l => (l, lookup string_dec l t)) labels.

(** [Series.dropna()] on a labelled series. *)
Fixpoint dropna_values (t : list (string * option nat)) : list (string * nat) :=
  match t with
  | [] => []
  | (l, Some n) :: rest => (l, n) :: dropna_values rest
  | (_, None) :: rest => dropna_values rest
  end.

Definition cat_df (f : list Row) : list (string * nat) :=
  dropna_values
    (reindex cat_order
       (value_counts
          (map participants_category
               (filter (fun r => notna (participants_category r)) f)))).

(* ------------------------------------------------------------------ *)
(** * Data table (lines 476-493) *)

Record DisplayRow : Type := mkDisplayRow {
  d_id : Z;
  d_country : option string;
  d_region : option string;
  d_year : option Z;
  d_start_date : option Timestamp;
  d_location : option string;
  d_protesterdemand1 : option string;
  d_stateresponse1 : option string;
  d_violence_label : option string;
  d_participants : Cell;
  d_protesteridentity : option string
}.

(** [filtered[display_cols]]. *)
Definition display_cols (r : Row) : DisplayRow :=
  {| d_id := id r; d_country := country r; d_region := region r;
     d_year := year r; d_start_date := start_date r;
     d_location := location r;
     d_protesterdemand1 := protesterdemand1 r;
     d_stateresponse1 := stateresponse1 r;
     d_violence_label := violence_label r;
     d_participants := participants r;
     d_protesteridentity := protesteridentity r |}.

(** Dates in calendar order. *)
Definition timestamp_leb (a b : Timestamp) : bool :=
  lex_leb Z.compare (lex_leb Z.compare Z.leb)
    (ts_year a, (ts_month a, ts_day a)) (ts_year b, (ts_month b, ts_day b)).

(** [a] may stand before [b] when sorting by date, latest first; a row
    with no date may only stand before another such row. *)
Definition later_first (a b : DisplayRow) : bool :=
  match d_start_date a, d_start_date b with
  | Some ta, Some tb => timestamp_leb tb ta
  | Some _, None => true
  | None, Some _ => false
  | None, None => true
  end.

(** [sort_values("start_date", ascending=False)]: dated rows latest
    first, then the rows with no date (NaT goes last whatever the
    direction).  [reset_index(drop=True)] renumbers the rows, which a list
    does by position. *)
Definition sort_values_start_date_desc (t : list DisplayRow)
  : list DisplayRow :=
  sort later_first t.

Definition data_table (f : list Row) : list DisplayRow :=
  sort_values_start_date_desc (map display_cols f).

(** Calendar order on dates, and the order of the rows of the table. *)
Definition ts_le (a b : Timestamp) : Prop :=
  ts_year a < ts_year b
  \/ (ts_year a = ts_year b
      /\ (ts_month a < ts_month b
          \/ (ts_month a = ts_month b /\ ts_day a <= ts_day b))).

Definition date_order (a b : DisplayRow) : Prop :=
  match d_start_date a, d_start_date b with
  | Some ta, Some tb => ts_le tb ta
  | Some _, None => True
  | None, Some _ => False
  | None, None => True
  end.

(* ================================================================== *)
(** * Facts about sorting, distinct values and counting *)

Section SortFacts.
Context {A : Type}.
Variable leb : A -> A -> bool.

Lemma insert_perm (x : A) (l : list A) :
  Permutation (insert leb x l) (x :: l).
Proof.
  induction l as [|y t IH]; simpl; [apply Permutation_refl|].
  destruct (leb x y); [apply Permutation_refl|].
  eapply perm_trans; [apply perm_skip, IH | apply perm_swap].
Qed.

Lemma sort_perm (l : list A) : Permutation (sort leb l) l.
Proof.
  induction l as [|x t IH]; simpl; [constructor|].
  eapply perm_trans; [apply insert_perm | apply perm_skip, IH].
Qed.

Lemma In_sort (x : A) (l : list A) : In x (sort leb l) <-> In x l.
Proof.
  split; apply Permutation_in;
    [apply sort_perm | apply Permutation_sym, sort_perm].
Qed.

Lemma NoDup_sort (l : list A) : NoDup l -> NoDup (sort leb l).
Proof.
  apply Permutation_NoDup, Permutation_sym, sort_perm.
Qed.

Lemma length_sort (l : list A) : List.length (sort leb l) = List.length l.
Proof. apply Permutation_length, sort_perm. Qed.

Hypothesis leb_total : forall x y, leb x y = true \/ leb y x = true.
Hypothesis leb_trans :
  forall x y z, leb x y = true -> leb y z = true -> leb x z = true.

Lemma Forall_insert (P : A -> Prop) (x : A) (l : list A) :
  P x -> Forall P l -> Forall P (insert leb x l).
Proof.
  intros Hx Hl. eapply Permutation_Forall.
  - apply Permutation_sym, insert_perm.
  - constructor; assumption.
Qed.

Lemma insert_sorted (x : A) (l : list A) :
  StronglySorted (fun a b => leb a b = true) l ->
  StronglySorted (fun a b => leb a b = true) (insert leb x l).
Proof.
  induction 1 as [|y t Ht IH Hy]; simpl.
  - repeat constructor.
  - destruct (leb x y) eqn:E.
    + constructor; [constructor; assumption|].
      constructor; [exact E|].
      eapply Forall_impl; [|exact Hy].
      intros z Hz. eapply leb_trans; eassumption.
    + constructor; [exact IH|].
      apply Forall_insert; [|exact Hy].
      destruct (leb_total x y) as [H|H]; congruence.
Qed.

Lemma sort_sorted (l : list A) :
  StronglySorted (fun a b => leb a b = true) (sort leb l).
Proof.
  induction l as [|x t IH]; simpl; [constructor | apply insert_sorted, IH].
Qed.
End SortFacts.

Lemma StronglySorted_app_inv {A : Type} (R : A -> A -> Prop) (l1 l2 : list A) :
  StronglySorted R (l1 ++ l2)%list ->
  forall x y, In x l1 -> In y l2 -> R x y.
Proof.
  induction l1 as [|a t IH]; simpl; intros H x y Hx Hy; [contradiction|].
  inversion H as [|? ? Ht Ha]; subst.
  destruct Hx as [->|Hx].
  - rewrite Forall_forall in Ha. apply Ha, in_or_app. right; exact Hy.
  - apply IH; assumption.
Qed.

Lemma StronglySorted_weaken {A : Type} (R R' : A -> A -> Prop) (l : list A) :
  (forall a b, R a b -> R' a b) -> StronglySorted R l -> StronglySorted R' l.
Proof.
  intros H. induction 1 as [|a t Ht IH Ha]; constructor; [exact IH|].
  eapply Forall_impl; [|exact Ha]. intros b. apply H.
Qed.

Lemma StronglySorted_In_weaken {A : Type} (R R' : A -> A -> Prop)
    (l : list A) :
  (forall a b, In a l -> In b l -> R a b -> R' a b) ->
  StronglySorted R l -> StronglySorted R' l.
Proof.
  intros H Hs. induction Hs as [|a t Ht IH Ha]; constructor.
  - apply IH. intros x y Hx Hy. apply H; right; assumption.
  - rewrite Forall_forall in *. intros b Hb.
    apply H; [left; reflexivity | right; exact Hb | apply Ha, Hb].
Qed.

Section UniqueFacts.
Context {A : Type}.
Variable eq_dec : forall x y : A, {x = y} + {x <> y}.

Lemma In_remove_iff (x y : A) (l : list A) :
  In y (remove eq_dec x l) <-> In y l /\ y <> x.
Proof.
  split.
  - apply in_remove.
  - intros [H1 H2]. apply in_in_remove; assumption.
Qed.

Lemma NoDup_remove_elt (x : A) (l : list A) :
  NoDup l -> NoDup (remove eq_dec x l).
Proof.
  induction 1 as [|y t Hy Ht IH]; simpl; [constructor|].
  destruct (eq_dec x y); [exact IH|].
  constructor; [|exact IH].
  rewrite In_remove_iff. tauto.
Qed.

Lemma In_unique (x : A) (l : list A) : In x (unique eq_dec l) <-> In x l.
Proof.
  induction l as [|y t IH]; simpl; [tauto|].
  rewrite In_remove_iff, IH.
  destruct (eq_dec x y) as [->|Hn]; [tauto|].
  split; [tauto|]. intros [H|H]; [congruence | tauto].
Qed.

Lemma NoDup_unique (l : list A) : NoDup (unique eq_dec l).
Proof.
  induction l as [|y t IH]; simpl; constructor.
  - apply remove_In.
  - apply NoDup_remove_elt, IH.
Qed.
End UniqueFacts.

Lemma In_dropna {A : Type} (x : A) (l : list (option A)) :
  In x (dropna l) <-> In (Some x) l.
Proof.
  induction l as [|[v|] t IH]; simpl; [tauto| |].
  - rewrite IH. split; (intros [H|H]; [left; congruence | right; exact H]).
  - rewrite IH. split; [tauto|]. intros [H|H]; [discriminate | exact H].
Qed.

Lemma filter_nil_iff {A : Type} (p : A -> bool) (l : list A) :
  filter p l = [] <-> forall x, In x l -> p x = false.
Proof.
  induction l as [|a t IH]; simpl; [tauto|].
  destruct (p a) eqn:E.
  - split; [discriminate|]. intros H. specialize (H a (or_introl eq_refl)).
    congruence.
  - rewrite IH. split.
    + intros H x [->|Hx]; auto.
    + intros H x Hx. apply H. right; exact Hx.
Qed.

Lemma len_nonneg {A : Type} (l : list A) : 0 <= len l.
Proof. unfold len. lia. Qed.

Lemma len_zero_iff {A : Type} (l : list A) : len l = 0 <-> l = [].
Proof.
  unfold len. destruct l; simpl; split; intros H;
    try reflexivity; try discriminate; lia.
Qed.

(* ================================================================== *)
(** * Properties of the loader *)

Lemma mapM_Return_iff {A B : Type} (f : A -> Exc B) (l : list A) (l' : list B) :
  mapM f l = Return l' <-> Forall2 (fun a b => f a = Return b) l l'.
Proof.
  revert l'; induction l as [|a t IH]; intros l'; simpl.
  - split; intros H.
    + inversion H; constructor.
    + inversion H; reflexivity.
  - destruct (f a) as [e|b] eqn:Ea; simpl.
    + split; intros H; [discriminate|].
      inversion H; subst; congruence.
    + destruct (mapM f t) as [e|bs] eqn:Et; simpl.
      * split; intros H; [discriminate|].
        inversion H as [|? b' ? bs' Hb Hbs]; subst.
        apply IH in Hbs; discriminate.
      * split; intros H.
        -- inversion H; subst. constructor; [assumption|].
           apply IH; reflexivity.
        -- inversion H as [|? b' ? bs' Hb Hbs]; subst.
           apply IH in Hbs. congruence.
Qed.

Lemma or_default_fillna (x : option Z) (d : Z) :
  fillna x (Some d) = Some (or_default x d).
Proof. destruct x; reflexivity. Qed.


Lemma cells_exact_iff (rr : RawRow) :
  cells_exact rr = true <->
  cell_exact (raw_startmonth rr) = true /\ cell_exact (raw_startday rr) = true
  /\ cell_exact (raw_startyear rr) = true /\ cell_exact (raw_year rr) = true
  /\ cell_exact (raw_protesterviolence rr) = true.
Proof. unfold cells_exact. rewrite !andb_true_iff. tauto. Qed.

Lemma calendar_date_cases (y m d : Z) :
  (is_date y m d -> calendar_date y m d = Some (mkTimestamp y m d))
  /\ (~ is_date y m d -> calendar_date y m d = None).
Proof.
  unfold calendar_date, is_date.
  destruct ((1 <=? m) && (m <=? 12) && (1 <=? d) && (d <=? days_in_month y m))
    eqn:E.
  - split; [reflexivity|]. intros H. exfalso. apply H.
    rewrite !andb_true_iff, !Z.leb_le in E. lia.
  - split; [|reflexivity]. intros H.
    assert (E' : (1 <=? m) && (m <=? 12) && (1 <=? d)
                 && (d <=? days_in_month y m) = true).
    { rewrite !andb_true_iff, !Z.leb_le. lia. }
    congruence.
Qed.

Section LoaderFacts.
Variable astype_int_inexact : string -> Z -> Exc Z.
Variable to_datetime_other : Z -> Z -> Z -> option Timestamp.
Variable to_numeric_other : string -> option Q.

Let normalize :=
  normalize_row astype_int_inexact to_datetime_other to_numeric_other.
Let load := load_data astype_int_inexact to_datetime_other to_numeric_other.
Let cast := astype_int astype_int_inexact.

Lemma astype_int_exact (col : string) (x : option Z) :
  cell_exact x = true ->
  cast col x = match x with
               | Some z => Return z
               | None => Raise IntCastingNaNError
               end.
Proof.
  unfold cast, astype_int, cell_exact. destruct x as [z|]; [|reflexivity].
  intros ->. reflexivity.
Qed.

(** What a row that [normalize_row] returns is made of. *)
Lemma normalize_row_inv (rr : RawRow) (r : Row) :
  normalize rr = Return r ->
  cast "startmonth" (fillna (raw_startmonth rr) (Some 1))
  = Return (startmonth r)
  /\ cast "startday" (fillna (raw_startday rr) (Some 1)) = Return (startday r)
  /\ cast "startyear" (fillna (raw_startyear rr) (raw_year rr))
     = Return (startyear r)
  /\ cast "protesterviolence" (fillna (raw_protesterviolence rr) (Some 0))
     = Return (protesterviolence r)
  /\ start_date r
     = to_datetime_coerce to_datetime_other
         (startyear r) (startmonth r) (startday r)
  /\ participants_numeric r
     = to_numeric_coerce to_numeric_other (raw_participants rr)
  /\ violence_label r = map_violence_label (protesterviolence r)
  /\ id r = raw_id rr /\ country r = raw_country rr
  /\ region r = raw_region rr /\ year r = raw_year rr
  /\ location r = raw_location rr /\ participants r = raw_participants rr
  /\ participants_category r = raw_participants_category rr
  /\ protesteridentity r = raw_protesteridentity rr
  /\ protesterdemand1 r = raw_protesterdemand1 rr
  /\ stateresponse1 r = raw_stateresponse1 rr.
Proof.
  unfold normalize, normalize_row, cast.
  destruct (astype_int astype_int_inexact "startmonth" _) as [e|sm];
    [discriminate|].
  destruct (astype_int astype_int_inexact "startday" _) as [e|sd];
    [discriminate|].
  destruct (astype_int astype_int_inexact "startyear" _) as [e|sy];
    [discriminate|].
  destruct (astype_int astype_int_inexact "protesterviolence" _) as [e|pv];
    [discriminate|].
  simpl. intros H; inversion H; subst; clear H. simpl.
  repeat split; reflexivity.
Qed.

Lemma normalized_of_inv (rr : RawRow) (r : Row) :
  cells_exact rr = true -> normalize rr = Return r ->
  normalized rr r
  /\ protesterviolence r = or_default (raw_protesterviolence rr) 0.
Proof.
  intros Hex H. apply cells_exact_iff in Hex as (Em & Ed & Ey & Eyr & Ev).
  apply normalize_row_inv in H
    as (Hm & Hd & Hy & Hv & Hdate & Hnum & _ & Hrest).
  rewrite or_default_fillna in Hm, Hd, Hv.
  rewrite astype_int_exact in Hm, Hd, Hv;
    try (destruct (raw_startmonth rr), (raw_startday rr),
           (raw_protesterviolence rr); simpl in *; assumption || reflexivity).
  inversion Hm as [Hm']; inversion Hd as [Hd']; inversion Hv as [Hv'].
  assert (Hy' : Some (startyear r) = match raw_startyear rr with
                                     | Some y => Some y
                                     | None => raw_year rr
                                     end).
  { rewrite astype_int_exact in Hy.
    - destruct (raw_startyear rr) as [y|]; simpl in *; [congruence|].
      destruct (raw_year rr); simpl in *; congruence.
    - destruct (raw_startyear rr); simpl; assumption. }
  split; [|reflexivity].
  unfold normalized. rewrite <- Hm', <- Hd'.
  split; [reflexivity|]. split; [reflexivity|]. split; [exact Hy'|].
  split.
  { intros Hrange. rewrite Hdate. unfold to_datetime_coerce.
    rewrite Hm', Hd' in Hrange |- *. rewrite Hrange.
    apply calendar_date_cases. }
  split; [|exact Hrest].
  rewrite Hnum. destruct (raw_participants rr) as [|q|s]; simpl;
    try reflexivity.
  intros z Hz. rewrite Hz. reflexivity.
Qed.

Lemma normalize_row_total (rr : RawRow) :
  cells_exact rr = true -> has_start_year rr = true ->
  exists r, normalize rr = Return r.
Proof.
  intros Hex Hy. apply cells_exact_iff in Hex as (Em & Ed & Ey & Eyr & Ev).
  unfold normalize, normalize_row.
  rewrite !or_default_fillna.
  fold cast. rewrite !(astype_int_exact _ (Some _));
    try (destruct (raw_startmonth rr), (raw_startday rr),
           (raw_protesterviolence rr); simpl in *; assumption || reflexivity).
  simpl.
  rewrite (astype_int_exact "startyear");
    [|destruct (raw_startyear rr); simpl; assumption].
  unfold has_start_year, notna in Hy.
  destruct (raw_startyear rr) as [y|]; simpl; [eauto|].
  destruct (raw_year rr) as [y|]; simpl; [eauto | discriminate].
Qed.

Lemma normalize_row_Raise (rr : RawRow) :
  cells_exact rr = true -> has_start_year rr = false ->
  normalize rr = Raise IntCastingNaNError.
Proof.
  intros Hex Hy. apply cells_exact_iff in Hex as (Em & Ed & Ey & Eyr & Ev).
  unfold normalize, normalize_row.
  rewrite !or_default_fillna.
  fold cast. rewrite !(astype_int_exact _ (Some _));
    try (destruct (raw_startmonth rr), (raw_startday rr),
           (raw_protesterviolence rr); simpl in *; assumption || reflexivity).
  simpl.
  unfold has_start_year, notna in Hy.
  destruct (raw_startyear rr) as [y|]; simpl in Hy; [discriminate|].
  destruct (raw_year rr) as [y|]; simpl in Hy; [discriminate|].
  reflexivity.
Qed.

Lemma load_data_Sheet (raw : list RawRow) :
  load (Sheet raw) = mapM normalize raw.
Proof. reflexivity. Qed.

Lemma load_data_Return_inv (wb : Workbook) (df : list Row) :
  load wb = Return df ->
  exists raw,
    read_excel wb = Return raw
    /\ Forall2 (fun rr r => normalize rr = Return r) raw df.
Proof.
  unfold load, load_data.
  destruct (read_excel wb) as [e|raw]; simpl; [discriminate|].
  intros H. exists raw. split; [reflexivity|].
  apply mapM_Return_iff, H.
Qed.

Lemma load_data_total (raw : list RawRow) :
  Forall (fun rr => cells_exact rr = true) raw ->
  forallb has_start_year raw = true ->
  exists df, load (Sheet raw) = Return df /\ Forall2 normalized raw df.
Proof.
  rewrite load_data_Sheet.
  induction 1 as [|rr t Hex _ IH]; simpl; intros Hy.
  - exists []. split; [reflexivity | constructor].
  - apply andb_true_iff in Hy as [H1 H2].
    destruct (normalize_row_total rr Hex H1) as [r Hr].
    destruct (IH H2) as (df & Hdf & HF).
    exists (r :: df). rewrite Hr; simpl. rewrite Hdf; simpl.
    split; [reflexivity|]. constructor; [|exact HF].
    apply normalized_of_inv; assumption.
Qed.

Lemma load_data_fatal (raw : list RawRow) :
  Forall (fun rr => cells_exact rr = true) raw ->
  forallb has_start_year raw = false ->
  load (Sheet raw) = Raise IntCastingNaNError.
Proof.
  rewrite load_data_Sheet.
  induction 1 as [|rr t Hex _ IH]; simpl; intros Hy; [discriminate|].
  destruct (has_start_year rr) eqn:H1; simpl in Hy.
  - destruct (normalize_row_total rr Hex H1) as [r Hr].
    rewrite Hr; simpl. rewrite (IH Hy). reflexivity.
  - rewrite (normalize_row_Raise rr Hex H1). reflexivity.
Qed.
End LoaderFacts.

(* ================================================================== *)
(** * Properties of the filter engine *)

Lemma isin_true_iff (x : option string) (values : list string) :
  isin x values = true <-> selected x values.
Proof.
  unfold isin, selected. destruct x as [s|].
  - rewrite existsb_exists. split.
    + intros (v & Hin & Hv). apply String.eqb_eq in Hv; subst. eauto.
    + intros (v & Hs & Hin). inversion Hs; subst.
      exists v; split; [assumption | apply String.eqb_refl].
  - split; [discriminate|]. intros (v & Hs & _); discriminate.
Qed.

Lemma isna_true_iff {A : Type} (x : option A) : isna x = true <-> x = None.
Proof. destruct x; simpl; split; congruence. Qed.

Lemma between_true_iff (x : option Z) (a b : Z) :
  between x a b = true <-> exists y, x = Some y /\ a <= y /\ y <= b.
Proof.
  unfold between. destruct x as [y|].
  - rewrite andb_true_iff, !Z.leb_le. split.
    + intros [H1 H2]. eauto.
    + intros (y' & Hy & H1 & H2). inversion Hy; subst; auto.
  - split; [discriminate|]. intros (y & Hy & _); discriminate.
Qed.

Lemma base_mask_true_iff (s : Sidebar) (r : Row) :
  base_mask s r = true <->
  (exists y, year r = Some y
             /\ fst (year_range s) <= y /\ y <= snd (year_range s))
  /\ selected (region r) (selected_regions s)
  /\ selected (country r) (selected_countries s)
  /\ (selected (protesterdemand1 r) (selected_demands s)
      \/ protesterdemand1 r = None)
  /\ (selected (stateresponse1 r) (selected_responses s)
      \/ stateresponse1 r = None).
Proof.
  unfold base_mask.
  rewrite !andb_true_iff, !orb_true_iff, between_true_iff,
    !isin_true_iff, !isna_true_iff.
  tauto.
Qed.

Lemma mask_true_iff (s : Sidebar) (r : Row) :
  mask s r = true <-> satisfies s r.
Proof.
  unfold mask, satisfies.
  destruct (violence_opts s); simpl;
    rewrite ?andb_true_iff, ?Z.eqb_eq, base_mask_true_iff; tauto.
Qed.

(** C1.  The filtered set is exactly the rows of the table that meet
    every clause of the filter contract: year within the inclusive range,
    region and country among the selected ones, demand and response
    selected or missing, and the violence constraint.  The rows are kept
    in order and with their multiplicity. *)
Theorem filtered_exact (df : list Row) (s : Sidebar) :
  (forall r, In r (filtered df s) <-> In r df /\ satisfies s r)
  /\ exists keep, filtered df s = filter keep df
                  /\ forall r, keep r = true <-> satisfies s r.
Proof.
  split.
  - intros r. unfold filtered. rewrite filter_In, mask_true_iff. tauto.
  - exists (mask s). split; [reflexivity | apply mask_true_iff].
Qed.

(** Null passthrough: for a row with no recorded demand and no recorded
    response, the selected demands and responses play no part. *)
Lemma null_passthrough (s : Sidebar) (r : Row) (ds rs : list string) :
  protesterdemand1 r = None -> stateresponse1 r = None ->
  mask {| year_range := year_range s;
          selected_regions := selected_regions s;
          selected_countries := selected_countries s;
          selected_demands := ds;
          selected_responses := rs;
          violence_opts := violence_opts s |} r = mask s r.
Proof.
  intros Hd Hr. unfold mask, base_mask; simpl. rewrite Hd, Hr; simpl.
  reflexivity.
Qed.

Lemma mask_missing_region_or_country (s : Sidebar) (r : Row) :
  region r = None \/ country r = None -> mask s r = false.
Proof.
  intros H. destruct (mask s r) eqn:E; [|reflexivity].
  apply mask_true_iff in E.
  destruct E as (_ & (g & Hg & _) & (c & Hc & _) & _).
  destruct H; congruence.
Qed.

(** C10.  A row whose region or whose country is missing is never in the
    filtered set, whatever is selected, and in particular when the sidebar
    still has every available region and country selected. *)
Theorem missing_region_or_country_excluded
    (df : list Row) (s : Sidebar) (r : Row) :
  region r = None \/ country r = None ->
  mask s r = false
  /\ ~ In r (filtered df s)
  /\ forall yr, ~ In r (filtered df (default_sidebar df yr)).
Proof.
  intros H. split; [apply mask_missing_region_or_country; exact H|].
  split; [|intros yr]; unfold filtered; rewrite filter_In;
    intros [_ Hm]; rewrite mask_missing_region_or_country in Hm;
    solve [discriminate | exact H].
Qed.

Lemma missing_region_or_country_excluded_witness :
  mask sample_sidebar (event 6 (Some "Kenya") None (Some 2001) None None 0)
  = false
  /\ ~ In (event 6 (Some "Kenya") None (Some 2001) None None 0)
          (filtered sample_df sample_sidebar)
  /\ forall yr,
       ~ In (event 6 (Some "Kenya") None (Some 2001) None None 0)
            (filtered sample_df (default_sidebar sample_df yr)).
Proof.
  apply (missing_region_or_country_excluded sample_df sample_sidebar
           (event 6 (Some "Kenya") None (Some 2001) None None 0)).
  left; reflexivity.
Defined.

(* ------------------------------------------------------------------ *)
(** ** The loader against its contract *)

Lemma map_violence_label_Violent (v : Z) :
  map_violence_label v = Some "Violent" <-> v = 1.
Proof.
  unfold map_violence_label.
  destruct (v =? 0) eqn:E0; [apply Z.eqb_eq in E0; subst; split; discriminate|].
  destruct (v =? 1) eqn:E1.
  - apply Z.eqb_eq in E1; subst. split; reflexivity.
  - apply Z.eqb_neq in E1. split; [discriminate | contradiction].
Qed.

Lemma map_violence_label_Peaceful (v : Z) :
  map_violence_label v = Some "Peaceful" <-> v = 0.
Proof.
  unfold map_violence_label.
  destruct (v =? 0) eqn:E0.
  - apply Z.eqb_eq in E0; subst. split; reflexivity.
  - apply Z.eqb_neq in E0.
    destruct (v =? 1); split; try discriminate; contradiction.
Qed.

(** C4, as the code has it.  In a loaded table the violence flag of a
    row is 0 where the sheet records none, and the recorded integer where
    it records one (an integer a float holds exactly), so it is 0 or 1
    whenever the sheet holds nothing else; the label is "Violent" exactly
    when the flag is 1 and "Peaceful" exactly when it is 0, and rows with
    the same flag have the same label. *)
Theorem violence_flag_and_label
    (astype_int_inexact : string -> Z -> Exc Z)
    (to_datetime_other : Z -> Z -> Z -> option Timestamp)
    (to_numeric_other : string -> option Q)
    (wb : Workbook) (df : list Row) :
  load_data astype_int_inexact to_datetime_other to_numeric_other wb
  = Return df ->
  (exists raw,
      read_excel wb = Return raw
      /\ Forall2 (fun rr r =>
           (raw_protesterviolence rr = None -> protesterviolence r = 0)
           /\ (forall v, raw_protesterviolence rr = Some v ->
                         exact_int v = true -> protesterviolence r = v)
           /\ (raw_protesterviolence rr = None
               \/ raw_protesterviolence rr = Some 0
               \/ raw_protesterviolence rr = Some 1 ->
               protesterviolence r = 0 \/ protesterviolence r = 1))
         raw df)
  /\ Forall (fun r =>
       (violence_label r = Some "Violent" <-> protesterviolence r = 1)
       /\ (violence_label r = Some "Peaceful" <-> protesterviolence r = 0))
     df
  /\ forall r1 r2, In r1 df -> In r2 df ->
       protesterviolence r1 = protesterviolence r2 ->
       violence_label r1 = violence_label r2.
Proof.
  intros H. apply load_data_Return_inv in H as (raw & E & HF).
  assert (Hlabel : forall r, In r df ->
            violence_label r = map_violence_label (protesterviolence r)).
  { clear E. induction HF as [|rr r t df' Hn _ IH]; intros r0 [];
      [subst r0|apply IH; assumption].
    apply normalize_row_inv in Hn. tauto. }
  split; [|split].
  - exists raw. split; [exact E|]. clear E Hlabel.
    induction HF as [|rr r t df' Hn _ IH]; [constructor|].
    constructor; [|exact IH].
    apply normalize_row_inv in Hn as (_ & _ & _ & Hv & _).
    assert (H0 : raw_protesterviolence rr = None -> protesterviolence r = 0).
    { intros E0. rewrite E0 in Hv. simpl in Hv.
      inversion Hv; reflexivity. }
    assert (H1 : forall v, raw_protesterviolence rr = Some v ->
                           exact_int v = true -> protesterviolence r = v).
    { intros v E0 Hex. rewrite E0 in Hv. simpl in Hv.
      unfold astype_int in Hv. rewrite Hex in Hv. inversion Hv; reflexivity. }
    split; [exact H0|]. split; [exact H1|].
    intros [E0|[E0|E0]].
    + left. apply H0, E0.
    + left. apply (H1 0 E0). reflexivity.
    + right. apply (H1 1 E0). reflexivity.
  - apply Forall_forall. intros r Hr. rewrite (Hlabel r Hr).
    split; [apply map_violence_label_Violent
           | apply map_violence_label_Peaceful].
  - intros r1 r2 H1 H2 E0.
    rewrite (Hlabel r1 H1), (Hlabel r2 H2), E0. reflexivity.
Qed.

Lemma violence_flag_and_label_witness :
  exists df,
    load_example (Sheet [raw_canada; raw_flag_two]) = Return df
    /\ map protesterviolence df = [0; 2]
    /\ Forall (fun r =>
         (violence_label r = Some "Violent" <-> protesterviolence r = 1)
         /\ (violence_label r = Some "Peaceful" <-> protesterviolence r = 0))
       df.
Proof.
  destruct (load_example (Sheet [raw_canada; raw_flag_two])) as [e|df] eqn:E;
    [vm_compute in E; discriminate|].
  exists df. split; [reflexivity|]. split.
  - vm_compute in E. inversion E. reflexivity.
  - apply (violence_flag_and_label no_inexact_cell no_other_date
             not_a_number (Sheet [raw_canada; raw_flag_two]) df E).
Defined.

(** A sheet with a 2 in the violence column loads, and the row keeps the
    2: the flag is neither 0 nor 1, and the row has no label. *)
Lemma violence_flag_not_clamped :
  exists r,
    load_example (Sheet [raw_flag_two]) = Return [r]
    /\ protesterviolence r = 2
    /\ violence_label r = None
    /\ ~ (protesterviolence r = 0 \/ protesterviolence r = 1).
Proof.
  eexists. split; [vm_compute; reflexivity|]. simpl.
  split; [reflexivity|]. split; [reflexivity|].
  intros [H|H]; discriminate H.
Qed.




(** C6, as the code has it.  When [read_excel] fails (no file, or bytes
    it cannot read) the loader fails with the same exception.  A table
    that the loader returns always has one row per sheet row: there is no
    partial table.  A sheet whose integers a float holds exactly loads in
    full, normalized, when every row records a start year or a year, and
    otherwise ends the load with the cast's exception. *)
Theorem load_all_or_nothing
    (astype_int_inexact : string -> Z -> Exc Z)
    (to_datetime_other : Z -> Z -> Z -> option Timestamp)
    (to_numeric_other : string -> option Q) (wb : Workbook) :
  (forall e, read_excel wb = Raise e ->
     load_data astype_int_inexact to_datetime_other to_numeric_other wb
     = Raise e)
  /\ (forall df,
        load_data astype_int_inexact to_datetime_other to_numeric_other wb
        = Return df ->
        exists raw, read_excel wb = Return raw
                    /\ List.length df = List.length raw)
  /\ (forall raw,
        read_excel wb = Return raw ->
        Forall (fun rr => cells_exact rr = true) raw ->
        if forallb has_start_year raw
        then exists df,
               load_data astype_int_inexact to_datetime_other
                 to_numeric_other wb = Return df
               /\ List.length df = List.length raw
               /\ Forall2 normalized raw df
        else load_data astype_int_inexact to_datetime_other
               to_numeric_other wb = Raise IntCastingNaNError).
Proof.
  split; [|split].
  - intros e H. unfold load_data. rewrite H. reflexivity.
  - intros df H. apply load_data_Return_inv in H as (raw & E & HF).
    exists raw. split; [exact E|].
    symmetry. eapply Forall2_length; eassumption.
  - intros raw E Hex.
    assert (Ewb : wb = Sheet raw).
    { destruct wb; simpl in E; congruence. }
    subst wb. destruct (forallb has_start_year raw) eqn:Hy.
    + destruct (load_data_total astype_int_inexact to_datetime_other
                  to_numeric_other raw Hex Hy) as (df & Hdf & HF).
      exists df. split; [exact Hdf|]. split; [|exact HF].
      symmetry. eapply Forall2_length; eassumption.
    + apply load_data_fatal; assumption.
Qed.

Lemma load_all_or_nothing_witness :
  load_example (Unreadable BadZipFile) = Raise BadZipFile
  /\ exists df,
       load_example (Sheet [raw_canada; raw_flag_two]) = Return df
       /\ List.length df = 2%nat
       /\ Forall2 normalized [raw_canada; raw_flag_two] df.
Proof.
  split.
  - apply (load_all_or_nothing no_inexact_cell no_other_date not_a_number
             (Unreadable BadZipFile)). reflexivity.
  - destruct (load_all_or_nothing no_inexact_cell no_other_date not_a_number
                (Sheet [raw_canada; raw_flag_two])) as (_ & _ & H).
    specialize (H [raw_canada; raw_flag_two] eq_refl).
    change (forallb has_start_year [raw_canada; raw_flag_two]) with true in H.
    apply H. repeat constructor.
Defined.

(** The file is there and [read_excel] reads it, every recorded integer
    is small, yet the loader returns no table. *)
Lemma parseable_sheet_not_loaded :
  read_excel (Sheet [raw_canada; raw_no_year])
  = Return [raw_canada; raw_no_year]
  /\ Forall (fun rr => cells_exact rr = true) [raw_canada; raw_no_year]
  /\ load_example (Sheet [raw_canada; raw_no_year])
     = Raise IntCastingNaNError.
Proof.
  split; [reflexivity|]. split; [|reflexivity].
  repeat constructor.
Qed.

(* ================================================================== *)
(** * Properties of the KPI row *)

Lemma filtered_year_present (df : list Row) (s : Sidebar) :
  Forall (fun r => exists y, year r = Some y) (filtered df s).
Proof.
  apply Forall_forall. intros r Hr.
  apply filter_In in Hr as [_ Hm].
  apply mask_true_iff in Hm as ((y & Hy & _) & _). eauto.
Qed.

Lemma series_min_defined (f : list Row) :
  f <> [] -> Forall (fun r => exists y, year r = Some y) f ->
  exists z, series_min (map year f) = Some z.
Proof.
  destruct f as [|r t]; [congruence|]. intros _ H.
  inversion H as [|? ? (y & Hy) _]; subst.
  unfold series_min; simpl. rewrite Hy. eauto.
Qed.

Lemma series_max_defined (f : list Row) :
  f <> [] -> Forall (fun r => exists y, year r = Some y) f ->
  exists z, series_max (map year f) = Some z.
Proof.
  destruct f as [|r t]; [congruence|]. intros _ H.
  inversion H as [|? ? (y & Hy) _]; subst.
  unfold series_max; simpl. rewrite Hy. eauto.
Qed.

(** The KPI row of a filtered set is always computed: the guards on
    [len(filtered)] keep [int(nan)] out of reach. *)
Lemma kpi_row_total (df : list Row) (s : Sidebar) :
  exists k, kpi_row (filtered df s) = Return k.
Proof.
  unfold kpi_row, year_span.
  destruct (len (filtered df s) =? 0) eqn:E; simpl; [eauto|].
  apply Z.eqb_neq in E.
  assert (Hne : filtered df s <> []).
  { intros H. apply E, len_zero_iff, H. }
  destruct (series_min_defined _ Hne (filtered_year_present df s)) as [lo ->].
  destruct (series_max_defined _ Hne (filtered_year_present df s)) as [hi ->].
  simpl. eauto.
Qed.

(** C3.  When the filtered set is empty the KPI row is computed without
    an exception: total, countries and regions are 0, the violent
    percentage is 0 by the guard (the quotient is not evaluated), and the
    year span reads "N/A". *)
Theorem kpis_of_empty_filtered_set (df : list Row) (s : Sidebar) :
  filtered df s = [] ->
  kpi_row (filtered df s) = Return empty_kpis
  /\ violent_pct (filtered df s) = float_of_Z 0
  /\ year_span (filtered df s) = Return "N/A"
  /\ true_divide (sum (map protesterviolence (filtered df s)))
       (len (filtered df s)) = nan.
Proof.
  intros ->. repeat split.
Qed.

Lemma kpis_of_empty_filtered_set_witness :
  kpi_row (filtered sample_df no_region_sidebar) = Return empty_kpis
  /\ violent_pct (filtered sample_df no_region_sidebar) = float_of_Z 0
  /\ year_span (filtered sample_df no_region_sidebar) = Return "N/A"
  /\ true_divide (sum (map protesterviolence
                         (filtered sample_df no_region_sidebar)))
       (len (filtered sample_df no_region_sidebar)) = nan.
Proof.
  apply (kpis_of_empty_filtered_set sample_df no_region_sidebar).
  reflexivity.
Defined.

(* ================================================================== *)
(** * Properties of the violence rate by year *)

Lemma in_year_true_iff (y : Z) (r : Row) :
  in_year y r = true <-> year r = Some y.
Proof.
  unfold in_year. destruct (year r) as [y'|].
  - rewrite Z.eqb_eq. split; congruence.
  - split; discriminate.
Qed.

(** The years that get a group are those of some row. *)
Lemma group_year_iff (f : list Row) (y : Z) :
  In y (sort Z.leb (unique Z.eq_dec (dropna (map year f))))
  <-> filter (in_year y) f <> [].
Proof.
  rewrite In_sort, In_unique, In_dropna, in_map_iff. split.
  - intros (r & Hy & Hin) H.
    rewrite filter_nil_iff in H. specialize (H r Hin).
    apply in_year_true_iff in Hy. congruence.
  - intros H. destruct (filter (in_year y) f) as [|r t] eqn:E; [congruence|].
    assert (Hr : In r (filter (in_year y) f)) by (rewrite E; left; reflexivity).
    apply filter_In in Hr as [Hin Hy]. apply in_year_true_iff in Hy. eauto.
Qed.

Lemma trend_of_year_map (f : list Row) (y : Z) (ys : list Z) :
  trend_of_year y (map (viol_trend_row f) ys)
  = if in_dec Z.eq_dec y ys then Some (viol_trend_row f y) else None.
Proof.
  unfold trend_of_year.
  induction ys as [|a t IH]; simpl; [reflexivity|].
  destruct (Z.eq_dec a y) as [->|Hn].
  - rewrite Z.eqb_refl. reflexivity.
  - apply Z.eqb_neq in Hn as Hb. rewrite Hb, IH.
    destruct (in_dec Z.eq_dec y t); reflexivity.
Qed.

(** With flags that are 0 or 1, the sum of the flags counts the violent
    rows. *)
Lemma sum_flags_counts_violent (g : list Row) :
  Forall (fun r => protesterviolence r = 0 \/ protesterviolence r = 1) g ->
  sum (map protesterviolence g) = len (filter is_violent g).
Proof.
  unfold len.
  induction 1 as [|r t Hr _ IH]; [reflexivity|].
  change (protesterviolence r + sum (map protesterviolence t)
          = Z.of_nat (List.length (filter is_violent (r :: t)))).
  rewrite IH. cbn [filter]. unfold is_violent at 2.
  destruct Hr as [E|E]; rewrite E; cbn [Z.eqb Pos.eqb List.length].
  - lia.
  - rewrite Nat2Z.inj_succ. lia.
Qed.

(** The rate on a few counts: ties go to the even tenth (6.25 gives 6.2,
    18.75 gives 18.8), and 23 of 80 gives 28.7 because the float product
    is just below 28.75. *)
Lemma violence_rate_examples :
  map (fun vt => round1 (fmul (true_divide (fst vt) (snd vt)) (float_of_Z 100)))
      [(1, 3); (2, 3); (1, 8); (1, 16); (3, 16); (23, 80); (0, 5); (5, 5)]
  = map (fun n => PrimFloat.div (float_of_Z n) (float_of_Z 10))
        [333; 667; 125; 62; 188; 287; 0; 1000].
Proof. vm_compute. reflexivity. Qed.

(** C2, as the code has it.  The trend table has a record for a year
    exactly when the filtered set has a row in that year.  A year with no
    filtered rows has no record (no rate is reported for it); a year with
    [t > 0] rows has [total = t], [violent] the sum of the flags, and as
    rate the binary64 value of [round(violent / total * 100, 1)]; when the
    flags are 0 or 1, [violent] is the number [v] of violent rows and the
    rate is that of [v] out of [t]. *)
Theorem violence_rate_by_year (f : list Row) (y : Z) :
  let g := filter (in_year y) f in
  (g = [] -> trend_of_year y (viol_trend f) = None)
  /\ (g <> [] ->
      exists e,
        trend_of_year y (viol_trend f) = Some e
        /\ vt_year e = y
        /\ total e = len g /\ 0 < total e
        /\ violent e = sum (map protesterviolence g)
        /\ violence_rate e
           = round1 (fmul (true_divide (sum (map protesterviolence g)) (len g))
                          (float_of_Z 100))
        /\ (Forall (fun r => protesterviolence r = 0
                             \/ protesterviolence r = 1) g ->
            violent e = len (filter is_violent g)
            /\ violence_rate e
               = round1 (fmul (true_divide (len (filter is_violent g)) (len g))
                              (float_of_Z 100)))).
Proof.
  intros g. subst g. unfold viol_trend. rewrite trend_of_year_map.
  destruct (in_dec Z.eq_dec y _) as [Hin|Hout].
  - apply group_year_iff in Hin. split; [contradiction|].
    intros _. exists (viol_trend_row f y).
    split; [reflexivity|]. split; [reflexivity|]. split; [reflexivity|].
    split.
    { change (0 < len (filter (in_year y) f)).
      pose proof (len_nonneg (filter (in_year y) f)) as H0.
      destruct (Z.eq_dec (len (filter (in_year y) f)) 0) as [E|E]; [|lia].
      apply len_zero_iff in E. contradiction. }
    split; [reflexivity|]. split; [reflexivity|].
    intros Hflags. simpl.
    rewrite (sum_flags_counts_violent _ Hflags). split; reflexivity.
  - split; [reflexivity|]. intros Hg. exfalso. apply Hout.
    apply group_year_iff, Hg.
Qed.

(** 23 violent rows out of 80 in one year: the quotient times 100 is the
    float just below 28.75, so the rate is 28.7. *)
Lemma violence_rate_by_year_witness :
  exists e,
    trend_of_year 2005 (viol_trend trend_sample) = Some e
    /\ total e = 80 /\ violent e = 23
    /\ violence_rate e = PrimFloat.div (float_of_Z 287) (float_of_Z 10).
Proof.
  destruct (violence_rate_by_year trend_sample 2005) as [_ H].
  destruct H as (e & He & _ & Ht & _ & Hv & Hr & _);
    [intros H; vm_compute in H; discriminate|].
  exists e. rewrite Hr, Ht, Hv.
  split; [exact He|]. repeat split; vm_compute; reflexivity.
Defined.

(** Year 2001 lies inside the selected range 2000-2002 and has no
    filtered row: the trend table has records for 2000 and 2002 only, so
    no rate, 0 or other, is reported for 2001. *)
Lemma no_record_for_empty_year :
  fst (year_range sample_sidebar) <= 2001 <= snd (year_range sample_sidebar)
  /\ filter (in_year 2001) (filtered sample_df sample_sidebar) = []
  /\ map vt_year (viol_trend (filtered sample_df sample_sidebar))
     = [2000; 2002]
  /\ trend_of_year 2001 (viol_trend (filtered sample_df sample_sidebar))
     = None.
Proof.
  split; [simpl; lia|]. repeat split.
Qed.

(* ================================================================== *)
(** * Facts about group-by tables *)

Section GroupByFacts.
Context {K : Type}.
Variable eq_dec : forall x y : K, {x = y} + {x <> y}.
Variable leb : K -> K -> bool.

Lemma lookup_map_key {V : Type} (g : K -> V) (k : K) (ks : list K) :
  lookup eq_dec k (map (fun k' => (k', g k')) ks)
  = if in_dec eq_dec k ks then Some (g k) else None.
Proof.
  induction ks as [|a t IH]; simpl; [reflexivity|].
  destruct (eq_dec k a) as [->|Hn].
  - destruct (eq_dec a a); [reflexivity | congruence].
  - rewrite IH. destruct (eq_dec a k); [congruence|].
    destruct (in_dec eq_dec k t); reflexivity.
Qed.

Lemma groupby_size_keys (keys : list K) :
  map fst (groupby_size eq_dec leb keys) = sort leb (unique eq_dec keys).
Proof.
  unfold groupby_size. rewrite map_map; simpl. apply map_id.
Qed.

Lemma groupby_size_In_key (keys : list K) (k : K) :
  In k (map fst (groupby_size eq_dec leb keys)) <-> In k keys.
Proof.
  rewrite groupby_size_keys, In_sort. apply In_unique.
Qed.

Lemma groupby_size_NoDup (keys : list K) :
  NoDup (map fst (groupby_size eq_dec leb keys)).
Proof.
  rewrite groupby_size_keys. apply NoDup_sort, NoDup_unique.
Qed.

(** An observed key is listed with its number of occurrences; any other
    key is not listed. *)
Lemma groupby_size_lookup (keys : list K) (k : K) :
  lookup eq_dec k (groupby_size eq_dec leb keys)
  = if in_dec eq_dec k keys then Some (count_occ eq_dec keys k) else None.
Proof.
  unfold groupby_size. rewrite lookup_map_key.
  destruct (in_dec eq_dec k (sort leb (unique eq_dec keys))) as [H|H];
    destruct (in_dec eq_dec k keys) as [H'|H']; try reflexivity;
    exfalso; rewrite In_sort, In_unique in H; contradiction.
Qed.

(** Occurrences of a key among the present keys of a list of rows. *)
Lemma count_occ_dropna_map {R : Type} (key : R -> option K) (l : list R)
    (k : K) :
  count_occ eq_dec (dropna (map key l)) k
  = List.length (filter (fun r => match key r with
                                  | Some k' => if eq_dec k' k then true
                                               else false
                                  | None => false
                                  end) l).
Proof.
  induction l as [|r t IH]; simpl; [reflexivity|].
  destruct (key r) as [k'|]; simpl; [|exact IH].
  destruct (eq_dec k' k); simpl; rewrite IH; reflexivity.
Qed.
End GroupByFacts.

Lemma NoDup_firstn {A : Type} (n : nat) (l : list A) :
  NoDup l -> NoDup (firstn n l).
Proof.
  intros H. rewrite <- (firstn_skipn n l) in H.
  apply NoDup_app_remove_r in H. exact H.
Qed.

Lemma row_sum_add {A : Type} (a b : A -> nat) (ys : list A) :
  row_sum (map (fun y => (a y + b y)%nat) ys)
  = (row_sum (map a ys) + row_sum (map b ys))%nat.
Proof.
  induction ys as [|y t IH]; simpl; [reflexivity|]. rewrite IH. lia.
Qed.

Lemma row_sum_zero {A : Type} (a : A -> nat) (ys : list A) :
  (forall y, In y ys -> a y = 0%nat) -> row_sum (map a ys) = 0%nat.
Proof.
  induction ys as [|y t IH]; simpl; intros H; [reflexivity|].
  rewrite (H y (or_introl eq_refl)), IH; [reflexivity|].
  intros z Hz. apply H. right; exact Hz.
Qed.

(** Over distinct labels, a row falls under exactly one of them. *)
Lemma row_sum_indicator (y0 : Z) (ys : list Z) :
  NoDup ys -> In y0 ys ->
  row_sum (map (fun y => if y0 =? y then 1%nat else 0%nat) ys) = 1%nat.
Proof.
  induction 1 as [|y t Hy Ht IH]; simpl; intros Hin; [contradiction|].
  destruct (Z.eqb_spec y0 y) as [->|Hn].
  - rewrite row_sum_zero; [reflexivity|].
    intros z Hz. destruct (Z.eqb_spec y z); [congruence | reflexivity].
  - destruct Hin as [E|Hin]; [congruence|]. rewrite IH; auto.
Qed.

(** Splitting a count by year: when every counted row has its year among
    the distinct labels [ys], the counts per label add up to the count. *)
Lemma row_sum_by_year (p : Row -> bool) (ys : list Z) (l : list Row) :
  NoDup ys ->
  (forall r, In r l -> p r = true -> exists y, In y ys /\ year r = Some y) ->
  row_sum (map (fun y => List.length (filter (fun r => p r && in_year y r) l))
               ys)
  = List.length (filter p l).
Proof.
  intros Hnd. induction l as [|r t IH]; intros H.
  - simpl. apply row_sum_zero. reflexivity.
  - assert (IH' := IH (fun r' Hr' => H r' (or_intror Hr'))). clear IH.
    cbn [filter]. destruct (p r) eqn:Ep.
    + destruct (H r (or_introl eq_refl) Ep) as (y0 & Hy0 & Hyr).
      rewrite (map_ext _
        (fun y => ((if (y0 =? y)%Z then 1 else 0)
                   + List.length (filter (fun r' => p r' && in_year y r') t))%nat)).
      * rewrite row_sum_add, row_sum_indicator, IH' by assumption.
        reflexivity.
      * intros y. unfold in_year at 1. rewrite Hyr. cbn [andb].
        destruct (y0 =? y); reflexivity.
    + exact IH'.
Qed.

(* ================================================================== *)
(** * Properties of the country-by-year heatmap *)

Lemma filter_filter_absorb {A : Type} (p q : A -> bool) (l : list A) :
  (forall r, q r = true -> p r = true) ->
  filter q (filter p l) = filter q l.
Proof.
  intros H. induction l as [|r t IH]; simpl; [reflexivity|].
  destruct (p r) eqn:Ep; simpl.
  - rewrite IH. reflexivity.
  - destruct (q r) eqn:Eq; [|exact IH].
    apply H in Eq. congruence.
Qed.

Lemma of_country_true_iff (c : string) (r : Row) :
  of_country c r = true <-> country r = Some c.
Proof.
  unfold of_country. destruct (country r) as [c'|].
  - rewrite String.eqb_eq. split; congruence.
  - split; discriminate.
Qed.

Lemma key2_Some_iff {A B : Type} (x : option A) (y : option B) (a : A) (b : B) :
  key2 x y = Some (a, b) <-> x = Some a /\ y = Some b.
Proof.
  destruct x, y; simpl; split; try discriminate;
    try (intros [H1 H2]; discriminate).
  - intros H; inversion H; auto.
  - intros [H1 H2]; congruence.
Qed.

Lemma country_year_key_test (c : string) (y : Z) (r : Row) :
  match key2 (country r) (year r) with
  | Some k' => if country_year_dec k' (c, y) then true else false
  | None => false
  end = of_country c r && in_year y r.
Proof.
  unfold of_country, in_year.
  destruct (country r) as [c'|], (year r) as [y'|]; cbn [key2];
    try reflexivity.
  - destruct (country_year_dec (c', y') (c, y)) as [E|E].
    + inversion E; subst. rewrite String.eqb_refl, Z.eqb_refl. reflexivity.
    + destruct (String.eqb_spec c' c) as [->|]; [|reflexivity].
      destruct (Z.eqb_spec y' y) as [->|]; [congruence | reflexivity].
  - rewrite andb_false_r. reflexivity.
Qed.

Lemma country_count (f : list Row) (c : string) :
  count_occ string_dec (dropna (map country f)) c = country_total f c.
Proof.
  rewrite count_occ_dropna_map. unfold country_total. f_equal.
  apply filter_ext. intros r. unfold of_country.
  destruct (country r) as [c'|]; [|reflexivity].
  destruct (string_dec c' c) as [->|Hn].
  - rewrite String.eqb_refl. reflexivity.
  - apply String.eqb_neq in Hn. rewrite Hn. reflexivity.
Qed.

Lemma country_total_pos_iff (f : list Row) (c : string) :
  (0 < country_total f c)%nat <-> exists r, In r f /\ country r = Some c.
Proof.
  rewrite <- country_count.
  change (count_occ string_dec (dropna (map country f)) c > 0 <->
          exists r, In r f /\ country r = Some c)%nat.
  rewrite <- count_occ_In, In_dropna, in_map_iff. split.
  - intros (r & H1 & H2); eauto.
  - intros (r & H1 & H2); eauto.
Qed.

(** ** [value_counts] *)

Lemma value_counts_keys (col : list (option string)) :
  Permutation (map fst (value_counts col)) (unique string_dec (dropna col)).
Proof.
  unfold value_counts.
  eapply perm_trans; [apply Permutation_map, sort_perm|].
  rewrite map_map; simpl. rewrite map_id. apply Permutation_refl.
Qed.

Lemma value_counts_In (col : list (option string)) (c : string) :
  In c (map fst (value_counts col)) <-> In c (dropna col).
Proof.
  split; intros H.
  - apply (In_unique string_dec).
    eapply Permutation_in; [apply value_counts_keys | exact H].
  - eapply Permutation_in; [apply Permutation_sym, value_counts_keys|].
    apply (In_unique string_dec), H.
Qed.

Lemma value_counts_NoDup (col : list (option string)) :
  NoDup (map fst (value_counts col)).
Proof.
  eapply Permutation_NoDup;
    [apply Permutation_sym, value_counts_keys | apply NoDup_unique].
Qed.

Lemma value_counts_entry (col : list (option string)) (c : string) (k : nat) :
  In (c, k) (value_counts col) -> k = count_occ string_dec (dropna col) c.
Proof.
  unfold value_counts. rewrite In_sort, in_map_iff.
  intros (c' & E & _). inversion E; reflexivity.
Qed.

Lemma value_counts_sorted (col : list (option string)) :
  StronglySorted (fun a b => (snd b <= snd a)%nat) (value_counts col).
Proof.
  unfold value_counts.
  eapply StronglySorted_weaken; [|apply sort_sorted].
  - intros a b H. apply Nat.leb_le, H.
  - intros a b. rewrite !Nat.leb_le. lia.
  - intros a b c. rewrite !Nat.leb_le. lia.
Qed.

Lemma In_firstn {A : Type} (n : nat) (l : list A) (x : A) :
  In x (firstn n l) -> In x l.
Proof.
  intros H. rewrite <- (firstn_skipn n l). apply in_or_app. left; exact H.
Qed.

Lemma sorted_distinct_increasing (l : list Z) :
  StronglySorted (fun a b => Z.leb a b = true) l -> NoDup l ->
  StronglySorted Z.lt l.
Proof.
  induction 1 as [|a t Ht IH Ha]; intros Hnd; constructor.
  - apply IH. inversion Hnd; assumption.
  - inversion Hnd as [|? ? Hnot _]; subst.
    rewrite Forall_forall in *. intros b Hb.
    specialize (Ha b Hb). apply Z.leb_le in Ha.
    assert (a <> b) by (intros ->; contradiction). lia.
Qed.

Section HeatFacts.
Variable f : list Row.
Variable top_n : nat.

Let tops := top_countries_list f top_n.
Let keys :=
  dropna (map (fun r => key2 (country r) (year r))
              (filter (fun r => isin (country r) tops) f)).
Let index :=
  sort String.leb
    (unique string_dec (map (fun e => fst (fst e)) (heat_df f top_n))).
Let cols := columns (heat_pivot f top_n).

Lemma tops_NoDup : NoDup tops.
Proof.
  unfold tops, top_countries_list. rewrite <- firstn_map.
  apply NoDup_firstn, value_counts_NoDup.
Qed.

Lemma tops_length :
  List.length tops
  = Nat.min top_n (List.length (unique string_dec (dropna (map country f)))).
Proof.
  unfold tops, top_countries_list.
  rewrite length_map, length_firstn.
  rewrite <- (Permutation_length (value_counts_keys (map country f))).
  rewrite length_map. reflexivity.
Qed.

Lemma tops_In_total (c : string) :
  In c tops -> (0 < country_total f c)%nat.
Proof.
  unfold tops, top_countries_list. rewrite <- firstn_map. intros H.
  apply In_firstn, value_counts_In in H.
  rewrite <- country_count. apply (count_occ_In string_dec), H.
Qed.

(** The listed countries are the most frequent ones: none left out has
    more rows than one that is listed. *)
Lemma tops_dominate (c c' : string) :
  In c tops -> ~ In c' tops ->
  (country_total f c' <= country_total f c)%nat.
Proof.
  unfold tops, top_countries_list. intros Hc Hc'.
  set (vc := value_counts (map country f)) in *.
  destruct (in_dec string_dec c' (map fst vc)) as [Hin|Hout].
  - apply in_map_iff in Hc as ((c0 & k) & E & Hk); simpl in E; subst c0.
    apply in_map_iff in Hin as ((c0 & k') & E & Hk'); simpl in E; subst c0.
    assert (Hs : In (c', k') (skipn top_n vc)).
    { rewrite <- (firstn_skipn top_n vc) in Hk'.
      apply in_app_or in Hk' as [H|H]; [|exact H].
      exfalso. apply Hc'. apply in_map_iff. exists (c', k'); auto. }
    pose proof (value_counts_sorted (map country f)) as Hsort.
    fold vc in Hsort. rewrite <- (firstn_skipn top_n vc) in Hsort.
    pose proof (StronglySorted_app_inv _ _ _ Hsort _ _ Hk Hs) as Hle.
    simpl in Hle.
    apply In_firstn in Hk. apply value_counts_entry in Hk.
    apply In_firstn with (n := top_n) in Hk' || idtac.
    assert (Hk'' : In (c', k') vc).
    { rewrite <- (firstn_skipn top_n vc). apply in_or_app. right; exact Hs. }
    apply value_counts_entry in Hk''.
    rewrite country_count in Hk, Hk''. lia.
  - unfold vc in Hout. rewrite value_counts_In in Hout.
    rewrite <- (country_count f c').
    rewrite (proj1 (count_occ_not_In string_dec _ _) Hout). lia.
Qed.

Lemma key_In_iff (c : string) (y : Z) :
  In (c, y) keys <->
  exists r, In r f /\ country r = Some c /\ year r = Some y /\ In c tops.
Proof.
  unfold keys. rewrite In_dropna, in_map_iff. split.
  - intros (r & Hk & Hin). apply key2_Some_iff in Hk as [Hc Hy].
    apply filter_In in Hin as [Hf Hisin]. rewrite Hc in Hisin.
    apply isin_true_iff in Hisin as (v & E & Hv). inversion E; subst.
    exists r; auto.
  - intros (r & Hf & Hc & Hy & Ht). exists r. split.
    + apply key2_Some_iff; auto.
    + apply filter_In. split; [exact Hf|]. rewrite Hc.
      apply isin_true_iff. exists c; auto.
Qed.

Lemma key_count (c : string) (y : Z) :
  In c tops -> count_occ country_year_dec keys (c, y) = cell_count f c y.
Proof.
  intros Ht. unfold keys, cell_count. rewrite count_occ_dropna_map.
  rewrite (filter_ext _ _ (country_year_key_test c y)).
  rewrite filter_filter_absorb; [reflexivity|].
  intros r Hr. apply andb_true_iff in Hr as [Hc _].
  apply of_country_true_iff in Hc. rewrite Hc.
  apply isin_true_iff. exists c; auto.
Qed.

Lemma heat_cell (c : string) (y : Z) :
  In c tops ->
  match lookup country_year_dec (c, y) (heat_df f top_n) with
  | Some n => n
  | None => 0%nat
  end = cell_count f c y.
Proof.
  intros Ht. unfold heat_df. fold tops. fold keys.
  rewrite groupby_size_lookup, <- (key_count c y Ht).
  destruct (in_dec country_year_dec (c, y) keys) as [H|H]; [reflexivity|].
  symmetry. apply count_occ_not_In, H.
Qed.

Lemma heat_index_In (c : string) :
  In c index <-> exists y, In (c, y) keys.
Proof.
  unfold index. rewrite In_sort, In_unique, in_map_iff. split.
  - intros (((c', y), k) & E & Hin). simpl in E; subst c'. exists y.
    apply (groupby_size_In_key country_year_dec
             (lex_leb String.compare Z.leb)).
    apply in_map_iff. exists (c, y, k); auto.
  - intros (y & Hin).
    apply (groupby_size_In_key country_year_dec
             (lex_leb String.compare Z.leb)) in Hin.
    apply in_map_iff in Hin as (((c', y'), k) & E & Hin).
    simpl in E; inversion E; subst. exists (c, y, k); auto.
Qed.

Lemma heat_columns_In (y : Z) :
  In y cols <-> exists c, In (c, y) keys.
Proof.
  unfold cols, heat_pivot; simpl.
  rewrite In_sort, In_unique, in_map_iff. split.
  - intros (((c, y'), k) & E & Hin). simpl in E; subst y'. exists c.
    apply (groupby_size_In_key country_year_dec
             (lex_leb String.compare Z.leb)).
    apply in_map_iff. exists (c, y, k); auto.
  - intros (c & Hin).
    apply (groupby_size_In_key country_year_dec
             (lex_leb String.compare Z.leb)) in Hin.
    apply in_map_iff in Hin as (((c', y'), k) & E & Hin).
    simpl in E; inversion E; subst. exists (c, y, k); auto.
Qed.

Lemma heat_columns_NoDup : NoDup cols.
Proof. apply NoDup_sort, NoDup_unique. Qed.

Lemma heat_columns_increasing : StronglySorted Z.lt cols.
Proof.
  apply sorted_distinct_increasing; [|apply heat_columns_NoDup].
  apply sort_sorted.
  - intros x y. rewrite !Z.leb_le. lia.
  - intros x y z. rewrite !Z.leb_le. lia.
Qed.

Lemma heat_pivot_rows :
  rows (heat_pivot f top_n)
  = sort (fun a b => Nat.leb (row_sum (snd a)) (row_sum (snd b)))
      (map (fun c =>
              (c, map (fun y =>
                         match lookup country_year_dec (c, y)
                                 (heat_df f top_n) with
                         | Some n => n
                         | None => 0%nat
                         end) cols))
           index).
Proof.
  unfold heat_pivot, sort_by_total, fillna0, pivot; simpl.
  rewrite map_map; simpl. f_equal. apply map_ext. intros c.
  rewrite map_map. reflexivity.
Qed.

Lemma heat_rows_sorted :
  StronglySorted (fun a b => (row_sum (snd a) <= row_sum (snd b))%nat)
    (rows (heat_pivot f top_n)).
Proof.
  rewrite heat_pivot_rows.
  eapply StronglySorted_weaken; [|apply sort_sorted].
  - intros a b H. apply Nat.leb_le, H.
  - intros a b. rewrite !Nat.leb_le. lia.
  - intros a b c. rewrite !Nat.leb_le. lia.
Qed.

Lemma heat_row_cells (c : string) (cells : list nat) :
  In (c, cells) (rows (heat_pivot f top_n)) ->
  In c tops /\ cells = map (cell_count f c) cols.
Proof.
  rewrite heat_pivot_rows, In_sort, in_map_iff.
  intros (c' & E & Hin). inversion E; subst c' cells; clear E.
  apply heat_index_In in Hin as (y & Hk).
  apply key_In_iff in Hk as (r & _ & _ & _ & Ht).
  split; [exact Ht|]. apply map_ext. intros y'. apply heat_cell, Ht.
Qed.

Hypothesis years_present : Forall (fun r => exists y, year r = Some y) f.

Lemma heat_rows_labels :
  Permutation (map fst (rows (heat_pivot f top_n))) tops.
Proof.
  rewrite heat_pivot_rows.
  eapply perm_trans; [apply Permutation_map, sort_perm|].
  rewrite map_map; simpl. rewrite map_id.
  apply NoDup_Permutation.
  - apply NoDup_sort, NoDup_unique.
  - apply tops_NoDup.
  - intros c. fold index. rewrite heat_index_In. split.
    + intros (y & Hk). apply key_In_iff in Hk as (r & _ & _ & _ & Ht).
      exact Ht.
    + intros Ht. pose proof (tops_In_total c Ht) as Hpos.
      apply country_total_pos_iff in Hpos as (r & Hf & Hc).
      rewrite Forall_forall in years_present.
      destruct (years_present r Hf) as (y & Hy).
      exists y. apply key_In_iff. exists r; auto.
Qed.

Lemma heat_row_total (c : string) (cells : list nat) :
  In (c, cells) (rows (heat_pivot f top_n)) ->
  row_sum cells = country_total f c.
Proof.
  intros H. apply heat_row_cells in H as [Ht ->].
  unfold cell_count, country_total.
  apply row_sum_by_year; [apply heat_columns_NoDup|].
  intros r Hf Hc. apply of_country_true_iff in Hc.
  rewrite Forall_forall in years_present.
  destruct (years_present r Hf) as (y & Hy).
  exists y. split; [|exact Hy].
  apply heat_columns_In. exists c. apply key_In_iff. exists r; auto.
Qed.
Lemma heat_rows_sorted_by_country_total :
  StronglySorted
    (fun a b => (country_total f (fst a) <= country_total f (fst b))%nat)
    (rows (heat_pivot f top_n)).
Proof.
  eapply StronglySorted_In_weaken; [|apply heat_rows_sorted].
  intros [c1 cells1] [c2 cells2] H1 H2 Hle. simpl in *.
  rewrite <- (heat_row_total c1 cells1 H1), <- (heat_row_total c2 cells2 H2).
  exact Hle.
Qed.
End HeatFacts.

(** C7.  For a filtered set and any number [top_n] of countries (the
    slider offers 5 to 30), the heatmap matrix has as row labels exactly
    the [top_n] most frequent countries of the set, each once; its columns
    are the years in which one of these countries has a filtered event, in
    increasing order; the cell of a country and a year is the number of
    filtered events of that country in that year, hence 0 where there is
    none; and the rows come in ascending order of row total, that is, of
    the number of filtered events of their country. *)
Theorem heatmap_shape (df : list Row) (s : Sidebar) (top_n : nat) :
  let f := filtered df s in
  let p := heat_pivot f top_n in
  let tops := top_countries_list f top_n in
  Permutation (map fst (rows p)) tops
  /\ NoDup tops
  /\ List.length tops
     = Nat.min top_n (List.length (unique string_dec (dropna (map country f))))
  /\ (forall c, In c tops -> (0 < country_total f c)%nat)
  /\ (forall c c', In c tops -> ~ In c' tops ->
                   (country_total f c' <= country_total f c)%nat)
  /\ StronglySorted Z.lt (columns p)
  /\ (forall y, In y (columns p) <->
                exists r c, In r f /\ country r = Some c /\ year r = Some y
                            /\ In c tops)
  /\ (forall c cells, In (c, cells) (rows p) ->
                      cells = map (cell_count f c) (columns p))
  /\ (forall c y, (forall r, In r f -> country r = Some c ->
                             year r <> Some y) ->
                  cell_count f c y = 0%nat)
  /\ StronglySorted (fun a b => (row_sum (snd a) <= row_sum (snd b))%nat)
       (rows p)
  /\ StronglySorted
       (fun a b => (country_total f (fst a) <= country_total f (fst b))%nat)
       (rows p).
Proof.
  intros f p tops. subst p tops.
  split; [apply heat_rows_labels, filtered_year_present|].
  split; [apply tops_NoDup|].
  split; [apply tops_length|].
  split; [apply tops_In_total|].
  split; [apply tops_dominate|].
  split; [apply heat_columns_increasing|].
  split.
  { intros y. rewrite heat_columns_In. split.
    - intros (c & Hk). apply key_In_iff in Hk as (r & H1 & H2 & H3 & H4).
      exists r, c; auto.
    - intros (r & c & H1 & H2 & H3 & H4). exists c.
      apply key_In_iff. exists r; auto. }
  split; [intros c cells H; apply heat_row_cells in H as [_ H]; exact H|].
  split; [|split; [apply heat_rows_sorted
                  |apply heat_rows_sorted_by_country_total,
                     filtered_year_present]].
  intros c y H. unfold cell_count.
  replace (filter (fun r => of_country c r && in_year y r) f) with (@nil Row);
    [reflexivity|].
  symmetry. apply filter_nil_iff. intros r Hr.
  destruct (of_country c r) eqn:Ec; [|reflexivity].
  destruct (in_year y r) eqn:Ey; [|reflexivity].
  apply of_country_true_iff in Ec. apply in_year_true_iff in Ey.
  exfalso. exact (H r Hr Ec Ey).
Qed.

(** Six countries, five shown: the country with the fewest events is
    left out, and the rows are not in alphabetical order but in ascending
    order of their totals 2, 3, 4, 5, 6. *)
Lemma heatmap_shape_witness :
  top_countries_list (filtered heat_sample heat_sidebar) 5
  = ["Bolivia"; "Denmark"; "France"; "Algeria"; "Egypt"]
  /\ columns (heat_pivot (filtered heat_sample heat_sidebar) 5)
     = [2000; 2001; 2002]
  /\ rows (heat_pivot (filtered heat_sample heat_sidebar) 5)
     = [("Egypt", [0; 2; 0]%nat); ("Algeria", [3; 0; 0]%nat);
        ("France", [4; 0; 0]%nat); ("Denmark", [0; 0; 5]%nat);
        ("Bolivia", [0; 4; 2]%nat)]
  /\ country_total (filtered heat_sample heat_sidebar) "Chile" = 1%nat
  /\ Permutation
       (map fst (rows (heat_pivot (filtered heat_sample heat_sidebar) 5)))
       (top_countries_list (filtered heat_sample heat_sidebar) 5)
  /\ StronglySorted
       (fun a b =>
          (country_total (filtered heat_sample heat_sidebar) (fst a)
           <= country_total (filtered heat_sample heat_sidebar) (fst b))%nat)
       (rows (heat_pivot (filtered heat_sample heat_sidebar) 5)).
Proof.
  pose proof (heatmap_shape heat_sample heat_sidebar 5) as H.
  cbv zeta in H.
  destruct H as (Hperm & _ & _ & _ & _ & _ & _ & _ & _ & _ & Hsorted).
  split; [vm_compute; reflexivity|]. split; [vm_compute; reflexivity|].
  split; [vm_compute; reflexivity|]. split; [vm_compute; reflexivity|].
  split; [exact Hperm | exact Hsorted].
Defined.

(** C8.  In the country-by-year pivot of a filtered set, the cells of a
    row add up, across all year columns, to the number of filtered rows of
    that row's country. *)
Theorem heatmap_row_total
    (df : list Row) (s : Sidebar) (top_n : nat) (c : string)
    (cells : list nat) :
  In (c, cells) (rows (heat_pivot (filtered df s) top_n)) ->
  row_sum cells = country_total (filtered df s) c.
Proof.
  apply heat_row_total, filtered_year_present.
Qed.

Lemma heatmap_row_total_witness :
  row_sum [2%nat; 1%nat]
  = country_total (filtered sample_df sample_sidebar) "India".
Proof.
  apply (heatmap_row_total sample_df sample_sidebar 5 "India"
           [2%nat; 1%nat]).
  vm_compute. right; left; reflexivity.
Defined.

(* ================================================================== *)
(** * Properties of the demand-by-region table *)

Section CountFacts.
Context {K : Type}.
Variable eq_dec : forall x y : K, {x = y} + {x <> y}.

Lemma row_sum_indicator_key (k0 : K) (ks : list K) :
  NoDup ks -> In k0 ks ->
  row_sum (map (fun k => if eq_dec k0 k then 1%nat else 0%nat) ks) = 1%nat.
Proof.
  induction 1 as [|k t Hk Ht IH]; simpl; intros Hin; [contradiction|].
  destruct (eq_dec k0 k) as [->|Hn].
  - rewrite row_sum_zero; [reflexivity|].
    intros z Hz. destruct (eq_dec k z); [congruence | reflexivity].
  - destruct Hin as [E|Hin]; [congruence|]. rewrite IH; auto.
Qed.

(** The sizes of the groups add up to the number of keyed rows. *)
Lemma row_sum_count_occ (l ks : list K) :
  NoDup ks -> (forall x, In x l -> In x ks) ->
  row_sum (map (count_occ eq_dec l) ks) = List.length l.
Proof.
  intros Hnd. induction l as [|x t IH]; intros Hin.
  - apply row_sum_zero. reflexivity.
  - rewrite (map_ext _
      (fun k => ((if eq_dec x k then 1 else 0) + count_occ eq_dec t k)%nat)).
    + rewrite row_sum_add.
      rewrite row_sum_indicator_key;
        [|exact Hnd | apply Hin; left; reflexivity].
      rewrite IH; [reflexivity|].
      intros z Hz. apply Hin. right; exact Hz.
    + intros k. simpl. destruct (eq_dec x k); reflexivity.
Qed.

Lemma groupby_size_total (leb : K -> K -> bool) (keys : list K) :
  row_sum (map snd (groupby_size eq_dec leb keys)) = List.length keys.
Proof.
  unfold groupby_size. rewrite map_map; simpl.
  apply row_sum_count_occ.
  - apply NoDup_sort, NoDup_unique.
  - intros x Hx. apply In_sort, In_unique, Hx.
Qed.
End CountFacts.

Lemma region_demand_key_test (g d : string) (r : Row) :
  match key2 (region r) (protesterdemand1 r) with
  | Some k' => if region_demand_dec k' (g, d) then true else false
  | None => false
  end
  = match region r, protesterdemand1 r with
    | Some g', Some d' => String.eqb g' g && String.eqb d' d
    | _, _ => false
    end.
Proof.
  destruct (region r) as [g'|], (protesterdemand1 r) as [d'|]; cbn [key2];
    try reflexivity.
  destruct (region_demand_dec (g', d') (g, d)) as [E|E].
  - inversion E; subst. rewrite !String.eqb_refl. reflexivity.
  - destruct (String.eqb_spec g' g) as [->|]; [|reflexivity].
    destruct (String.eqb_spec d' d) as [->|]; [congruence | reflexivity].
Qed.

Lemma region_demand_key_count (f : list Row) (g d : string) :
  count_occ region_demand_dec
    (dropna (map (fun r => key2 (region r) (protesterdemand1 r))
                 (dropna_demand f))) (g, d)
  = region_demand_count f g d.
Proof.
  unfold region_demand_count, dropna_demand.
  rewrite count_occ_dropna_map.
  rewrite (filter_ext _ _ (region_demand_key_test g d)).
  rewrite filter_filter_absorb; [reflexivity|].
  intros r. unfold notna.
  destruct (region r), (protesterdemand1 r); simpl; congruence.
Qed.

Lemma demand_region_lookup (f : list Row) (g d : string) :
  lookup region_demand_dec (g, d) (demand_region_df f)
  = if Nat.eqb (region_demand_count f g d) 0 then None
    else Some (region_demand_count f g d).
Proof.
  unfold demand_region_df.
  rewrite groupby_size_lookup, region_demand_key_count.
  destruct (in_dec region_demand_dec (g, d) _) as [H|H].
  - apply (count_occ_In region_demand_dec) in H.
    rewrite region_demand_key_count in H.
    destruct (Nat.eqb_spec (region_demand_count f g d) 0); [lia | reflexivity].
  - apply (count_occ_not_In region_demand_dec) in H.
    rewrite region_demand_key_count in H. rewrite H. reflexivity.
Qed.

Lemma dropna_demand_skips (f1 f2 : list Row) (r : Row) :
  protesterdemand1 r = None ->
  dropna_demand (f1 ++ r :: f2)%list = dropna_demand (f1 ++ f2)%list.
Proof.
  intros H. unfold dropna_demand. rewrite !filter_app. simpl.
  unfold notna at 2. rewrite H. reflexivity.
Qed.

Lemma filtered_region_present (df : list Row) (s : Sidebar) :
  Forall (fun r => exists g, region r = Some g) (filtered df s).
Proof.
  apply Forall_forall. intros r Hr.
  apply filter_In in Hr as [_ Hm].
  apply mask_true_iff in Hm as (_ & (g & Hg & _) & _). eauto.
Qed.

Lemma demand_region_keys_length (f : list Row) :
  Forall (fun r => exists g, region r = Some g) f ->
  List.length (dropna (map (fun r => key2 (region r) (protesterdemand1 r))
                           (dropna_demand f)))
  = List.length (dropna_demand f).
Proof.
  unfold dropna_demand.
  induction 1 as [|r t (g & Hg) _ IH]; simpl; [reflexivity|].
  unfold notna at 1 3. destruct (protesterdemand1 r) as [d|] eqn:Ed; simpl.
  - rewrite Hg, Ed; simpl. rewrite IH. reflexivity.
  - exact IH.
Qed.

Lemma demand_passthrough (s : Sidebar) (ds : list string) (r : Row) :
  protesterdemand1 r = None -> mask (with_demands s ds) r = mask s r.
Proof.
  intros H. unfold mask, base_mask; simpl. rewrite H; simpl. reflexivity.
Qed.

(** C9.  The demand-by-region table of a filtered set lists each observed
    pair of region and demand once, with the number of filtered rows
    having that region and that demand, and lists no other pair.  A row
    with no recorded demand is dropped before grouping: it changes no
    group, and the group sizes add up to the number of filtered rows with
    a recorded demand.  The filter treats the same rows the other way: a
    missing demand passes whatever demands are selected. *)
Theorem demand_by_region (df : list Row) (s : Sidebar) :
  let f := filtered df s in
  (forall g d,
      lookup region_demand_dec (g, d) (demand_region_df f)
      = if Nat.eqb (region_demand_count f g d) 0 then None
        else Some (region_demand_count f g d))
  /\ NoDup (map fst (demand_region_df f))
  /\ row_sum (map snd (demand_region_df f)) = List.length (dropna_demand f)
  /\ (forall f1 f2 r, protesterdemand1 r = None ->
        demand_region_df (f1 ++ r :: f2)%list
        = demand_region_df (f1 ++ f2)%list)
  /\ (forall r ds, protesterdemand1 r = None ->
        mask (with_demands s ds) r = mask s r).
Proof.
  intros f. subst f.
  split; [intros g d; apply demand_region_lookup|].
  split; [apply groupby_size_NoDup|].
  split.
  { unfold demand_region_df. rewrite groupby_size_total.
    apply demand_region_keys_length, filtered_region_present. }
  split.
  - intros f1 f2 r H. unfold demand_region_df.
    rewrite (dropna_demand_skips f1 f2 r H). reflexivity.
  - intros r ds H. apply demand_passthrough, H.
Qed.

Lemma demand_by_region_witness :
  demand_region_df (filtered sample_df sample_sidebar)
  = [("Asia", "labor wage dispute", 1%nat);
     ("Asia", "land farm issue", 1%nat);
     ("Europe", "labor wage dispute", 1%nat)]
  /\ List.length (filtered sample_df sample_sidebar) = 4%nat
  /\ row_sum (map snd (demand_region_df (filtered sample_df sample_sidebar)))
     = List.length (dropna_demand (filtered sample_df sample_sidebar)).
Proof.
  split; [reflexivity|]. split; [reflexivity|].
  apply (demand_by_region sample_df sample_sidebar).
Defined.

(* ================================================================== *)
(** * The year slider and the first view *)

Lemma fold_min_spec (x : Z) (t : list Z) :
  In (fold_right Z.min x t) (x :: t)
  /\ forall z, In z (x :: t) -> fold_right Z.min x t <= z.
Proof.
  induction t as [|a t [IHin IHle]]; simpl.
  - split; [left; reflexivity|]. intros z [E|[]]. lia.
  - split.
    + destruct (Z.min_spec a (fold_right Z.min x t)) as [[_ E]|[_ E]];
        rewrite E; [right; left; reflexivity|].
      destruct IHin as [H|H]; [left; exact H | right; right; exact H].
    + intros z [E|[E|H]].
      * specialize (IHle x (or_introl eq_refl)). lia.
      * lia.
      * specialize (IHle z (or_intror H)). lia.
Qed.

Lemma fold_max_spec (x : Z) (t : list Z) :
  In (fold_right Z.max x t) (x :: t)
  /\ forall z, In z (x :: t) -> z <= fold_right Z.max x t.
Proof.
  induction t as [|a t [IHin IHle]]; simpl.
  - split; [left; reflexivity|]. intros z [E|[]]. lia.
  - split.
    + destruct (Z.max_spec a (fold_right Z.max x t)) as [[_ E]|[_ E]];
        rewrite E; [|right; left; reflexivity].
      destruct IHin as [H|H]; [left; exact H | right; right; exact H].
    + intros z [E|[E|H]].
      * specialize (IHle x (or_introl eq_refl)). lia.
      * lia.
      * specialize (IHle z (or_intror H)). lia.
Qed.

Lemma In_year_column (df : list Row) (y : Z) :
  In y (dropna (map year df)) <-> exists r, In r df /\ year r = Some y.
Proof.
  rewrite In_dropna, in_map_iff. split; intros (r & H1 & H2); eauto.
Qed.

Lemma year_bounds_cases (df : list Row) :
  match year_bounds df with
  | Raise e => e = ValueError /\ forall r, In r df -> year r = None
  | Return (lo, hi) =>
      lo <= hi
      /\ (exists r, In r df /\ year r = Some lo)
      /\ (exists r, In r df /\ year r = Some hi)
      /\ forall r y, In r df -> year r = Some y -> lo <= y <= hi
  end.
Proof.
  unfold year_bounds, series_min, series_max.
  pose proof (In_year_column df) as Hcol.
  destruct (dropna (map year df)) as [|x t]; simpl.
  - split; [reflexivity|]. intros r Hr.
    destruct (year r) as [y|] eqn:E; [|reflexivity].
    exfalso. apply (proj2 (Hcol y)). eauto.
  - destruct (fold_min_spec x t) as [Hmin Hle].
    destruct (fold_max_spec x t) as [Hmax Hge].
    split; [specialize (Hle x (or_introl eq_refl));
            specialize (Hge x (or_introl eq_refl)); lia|].
    split; [apply Hcol, Hmin|]. split; [apply Hcol, Hmax|].
    intros r y Hr Hy.
    assert (Hin : In y (x :: t)) by (apply Hcol; eauto).
    specialize (Hle y Hin). specialize (Hge y Hin). lia.
Qed.

(** X1.  The bounds of the year slider: with no year in the table the
    script stops on [int(nan)]; otherwise the bounds are the least and the
    greatest recorded year. *)
Theorem year_bounds_spec (df : list Row) :
  match year_bounds df with
  | Raise e => e = ValueError /\ forall r, In r df -> year r = None
  | Return (lo, hi) =>
      lo <= hi
      /\ (exists r, In r df /\ year r = Some lo)
      /\ (exists r, In r df /\ year r = Some hi)
      /\ forall r y, In r df -> year r = Some y -> lo <= y <= hi
  end.
Proof. apply year_bounds_cases. Qed.

Lemma options_of_In (col : list (option string)) (v : string) :
  In v (options_of col) <-> In (Some v) col.
Proof.
  unfold options_of. rewrite In_sort, In_unique. apply In_dropna.
Qed.

Lemma options_of_NoDup (col : list (option string)) : NoDup (options_of col).
Proof. apply NoDup_sort, NoDup_unique. Qed.

Lemma available_countries_In (df : list Row) (regions : list string)
    (c : string) :
  In c (available_countries df regions) <->
  exists r g, In r df /\ country r = Some c /\ region r = Some g
              /\ In g regions.
Proof.
  unfold available_countries. rewrite options_of_In, in_map_iff. split.
  - intros (r & Hc & Hr). apply filter_In in Hr as [Hin Hg].
    apply isin_true_iff in Hg as (g & Hg & Hsel). exists r, g; auto.
  - intros (r & g & Hin & Hc & Hg & Hsel). exists r. split; [exact Hc|].
    apply filter_In. split; [exact Hin|].
    apply isin_true_iff. exists g; auto.
Qed.

Lemma default_sidebar_mask (df : list Row) (yr : Z * Z) (r : Row) :
  In r df ->
  (mask (default_sidebar df yr) r = true <->
   (exists y, year r = Some y /\ fst yr <= y /\ y <= snd yr)
   /\ region r <> None /\ country r <> None).
Proof.
  intros Hin. rewrite mask_true_iff. unfold satisfies; simpl. split.
  - intros (Hy & (g & Hg & _) & (c & Hc & _) & _).
    split; [exact Hy|]. split; congruence.
  - intros (Hy & Hg & Hc).
    destruct (region r) as [g|] eqn:Eg; [|congruence].
    destruct (country r) as [c|] eqn:Ec; [|congruence].
    assert (Hgr : In g (all_regions df)).
    { apply options_of_In, in_map_iff. eauto. }
    split; [exact Hy|]. split; [exists g; auto|]. split.
    { exists c. split; [reflexivity|].
      apply available_countries_In. exists r, g; auto. }
    split.
    + destruct (protesterdemand1 r) as [d|] eqn:Ed; [left | right; reflexivity].
      exists d. split; [reflexivity|].
      apply options_of_In, in_map_iff. eauto.
    + split; [|exact I].
      destruct (stateresponse1 r) as [d|] eqn:Ed; [left | right; reflexivity].
      exists d. split; [reflexivity|].
      apply options_of_In, in_map_iff. eauto.
Qed.

(** X2.  The first view: with the sidebar untouched, the filtered set is
    the table less the rows that record no year, no region or no country.
    A missing demand or response costs a row nothing. *)
Theorem initial_view (df : list Row) (s : Sidebar) (r : Row) :
  initial_sidebar df = Return s ->
  (In r (filtered df s) <->
   In r df /\ year r <> None /\ region r <> None /\ country r <> None).
Proof.
  unfold initial_sidebar. pose proof (year_bounds_cases df) as Hb.
  destruct (year_bounds df) as [e|[lo hi]]; simpl; [discriminate|].
  intros H; inversion H; subst s; clear H.
  destruct Hb as (_ & _ & _ & Hb).
  unfold filtered. rewrite filter_In. split.
  - intros [Hin Hm]. apply default_sidebar_mask in Hm; [|exact Hin].
    destruct Hm as ((y & Hy & _) & Hg & Hc).
    split; [exact Hin|]. split; [congruence | auto].
  - intros (Hin & Hy & Hg & Hc). split; [exact Hin|].
    apply default_sidebar_mask; [exact Hin|].
    destruct (year r) as [y|] eqn:Ey; [|congruence].
    split; [|auto]. exists y. split; [reflexivity|].
    simpl. apply (Hb r y Hin Ey).
Qed.

Lemma initial_view_witness :
  In (event 1 (Some "India") (Some "Asia") (Some 2000)
        (Some "land farm issue") (Some "ignore") 0)
     (filtered sample_df sample_sidebar)
  <-> In (event 1 (Some "India") (Some "Asia") (Some 2000)
            (Some "land farm issue") (Some "ignore") 0) sample_df
      /\ Some 2000 <> None /\ Some "Asia" <> None /\ Some "India" <> None.
Proof.
  apply (initial_view sample_df sample_sidebar
           (event 1 (Some "India") (Some "Asia") (Some 2000)
              (Some "land farm issue") (Some "ignore") 0)).
  vm_compute. reflexivity.
Defined.

(* ================================================================== *)
(** * Narrowing the filter *)

Lemma selected_incl (x : option string) (vs vs' : list string) :
  incl vs vs' -> selected x vs -> selected x vs'.
Proof. intros H (v & E & Hv). exists v. auto. Qed.

Lemma mask_narrower (s s' : Sidebar) (r : Row) :
  fst (year_range s') <= fst (year_range s) ->
  snd (year_range s) <= snd (year_range s') ->
  incl (selected_regions s) (selected_regions s') ->
  incl (selected_countries s) (selected_countries s') ->
  incl (selected_demands s) (selected_demands s') ->
  incl (selected_responses s) (selected_responses s') ->
  violence_opts s' = All \/ violence_opts s' = violence_opts s ->
  mask s r = true -> mask s' r = true.
Proof.
  intros Hlo Hhi Hg Hc Hd Hr Hv. rewrite !mask_true_iff.
  intros ((y & Hy & H1 & H2) & Sg & Sc & Sd & Sr & Sv).
  split; [exists y; split; [exact Hy | lia]|].
  split; [eapply selected_incl; eassumption|].
  split; [eapply selected_incl; eassumption|].
  split; [destruct Sd as [Sd|Sd]; [left; eapply selected_incl; eassumption
                                  | right; exact Sd]|].
  split; [destruct Sr as [Sr|Sr]; [left; eapply selected_incl; eassumption
                                  | right; exact Sr]|].
  destruct Hv as [E|E]; rewrite E; [exact I | exact Sv].
Qed.

(** X4.  Narrowing the sidebar never brings a row in: with a year range
    inside the other, fewer entries selected in each multiselect, and the
    same violence choice (or "All" on the wider side), the narrower
    filtered set is the wider one filtered again. *)
Theorem narrowing_only_removes (df : list Row) (s s' : Sidebar) :
  fst (year_range s') <= fst (year_range s) ->
  snd (year_range s) <= snd (year_range s') ->
  incl (selected_regions s) (selected_regions s') ->
  incl (selected_countries s) (selected_countries s') ->
  incl (selected_demands s) (selected_demands s') ->
  incl (selected_responses s) (selected_responses s') ->
  violence_opts s' = All \/ violence_opts s' = violence_opts s ->
  filtered df s = filtered (filtered df s') s
  /\ incl (filtered df s) (filtered df s').
Proof.
  intros Hlo Hhi Hg Hc Hd Hr Hv.
  assert (Hm : forall r, mask s r = true -> mask s' r = true).
  { intros r. apply mask_narrower; assumption. }
  unfold filtered. split.
  - symmetry. apply filter_filter_absorb, Hm.
  - intros r Hin. apply filter_In in Hin as [Hin Hs].
    apply filter_In. split; [exact Hin | apply Hm, Hs].
Qed.

Lemma narrowing_only_removes_witness :
  filtered sample_df (with_demands sample_sidebar ["land farm issue"])
  = filtered (filtered sample_df sample_sidebar)
      (with_demands sample_sidebar ["land farm issue"])
  /\ incl (filtered sample_df
             (with_demands sample_sidebar ["land farm issue"]))
          (filtered sample_df sample_sidebar).
Proof.
  apply (narrowing_only_removes sample_df
           (with_demands sample_sidebar ["land farm issue"])
           sample_sidebar).
  - simpl; lia.
  - simpl; lia.
  - apply incl_refl.
  - apply incl_refl.
  - intros d [<-|[]]. vm_compute. right; left; reflexivity.
  - apply incl_refl.
  - left; reflexivity.
Defined.

Lemma mask_with_violence (s : Sidebar) (v : ViolenceOpt) (r : Row) :
  mask (with_violence s v) r
  = base_mask s r && match v with
                     | All => true
                     | PeacefulOnly => protesterviolence r =? 0
                     | ViolentOnly => protesterviolence r =? 1
                     end.
Proof.
  unfold mask, with_violence; simpl.
  change (base_mask _ r) with (base_mask s r).
  destruct v; [rewrite andb_true_r|..]; reflexivity.
Qed.

(** X5.  The violence radio splits the view: "Peaceful only" and
    "Violent only" are parts of "All" with no row in common, and when
    every flag is 0 or 1 they are the whole of it. *)
Theorem violence_options_split (df : list Row) (s : Sidebar) :
  incl (filtered df (with_violence s PeacefulOnly))
       (filtered df (with_violence s All))
  /\ incl (filtered df (with_violence s ViolentOnly))
          (filtered df (with_violence s All))
  /\ (forall r, ~ (In r (filtered df (with_violence s PeacefulOnly))
                   /\ In r (filtered df (with_violence s ViolentOnly))))
  /\ (Forall (fun r => protesterviolence r = 0 \/ protesterviolence r = 1) df ->
      List.length (filtered df (with_violence s All))
      = (List.length (filtered df (with_violence s PeacefulOnly))
         + List.length (filtered df (with_violence s ViolentOnly)))%nat).
Proof.
  unfold filtered. split; [|split; [|split]].
  - intros r Hr. apply filter_In in Hr as [Hin Hm]. apply filter_In.
    split; [exact Hin|]. rewrite mask_with_violence in *.
    apply andb_true_iff in Hm as [Hm _]. rewrite Hm. reflexivity.
  - intros r Hr. apply filter_In in Hr as [Hin Hm]. apply filter_In.
    split; [exact Hin|]. rewrite mask_with_violence in *.
    apply andb_true_iff in Hm as [Hm _]. rewrite Hm. reflexivity.
  - intros r [Hp Hv].
    apply filter_In in Hp as [_ Hp]. apply filter_In in Hv as [_ Hv].
    rewrite mask_with_violence in Hp, Hv.
    apply andb_true_iff in Hp as [_ Hp]. apply andb_true_iff in Hv as [_ Hv].
    apply Z.eqb_eq in Hp. apply Z.eqb_eq in Hv. lia.
  - induction 1 as [|r t Hr _ IH]; [reflexivity|].
    cbn [filter]. rewrite !mask_with_violence.
    destruct (base_mask s r); cbn [andb]; [|exact IH].
    destruct Hr as [E|E]; rewrite E; cbn [Z.eqb Pos.eqb List.length];
      rewrite IH; lia.
Qed.

Lemma violence_options_split_witness :
  List.length (filtered sample_df (with_violence sample_sidebar All))
  = (List.length (filtered sample_df (with_violence sample_sidebar PeacefulOnly))
     + List.length (filtered sample_df (with_violence sample_sidebar ViolentOnly)))%nat.
Proof.
  apply (violence_options_split sample_df sample_sidebar).
  repeat (constructor; [vm_compute; auto|]). constructor.
Defined.

(* ================================================================== *)
(** * The KPI row of a filtered set *)

(** X6.  On a filtered set the KPI row is always computed: a filtered row
    has a year, so [int()] never meets NaN.  With at least one row, the
    year span shows the least and the greatest year of the set: both are
    years of filtered rows, every filtered year lies between them, and
    they are inside the slider's range. *)
Theorem kpi_row_of_filtered (df : list Row) (s : Sidebar) :
  exists k,
    kpi_row (filtered df s) = Return k
    /\ total_protests k = len (filtered df s)
    /\ (filtered df s <> [] ->
        exists lo hi,
          span k = str lo ++ "–" ++ str hi
          /\ (exists r, In r (filtered df s) /\ year r = Some lo)
          /\ (exists r, In r (filtered df s) /\ year r = Some hi)
          /\ (forall r y, In r (filtered df s) -> year r = Some y ->
                          lo <= y <= hi)
          /\ fst (year_range s) <= lo /\ lo <= hi
          /\ hi <= snd (year_range s)).
Proof.
  unfold kpi_row, year_span.
  destruct (len (filtered df s) =? 0) eqn:E; simpl.
  - eexists. split; [reflexivity|]. split; [reflexivity|].
    intros Hne. apply Z.eqb_eq, len_zero_iff in E. contradiction.
  - pose proof (year_bounds_cases (filtered df s)) as Hb.
    unfold year_bounds in Hb.
    apply Z.eqb_neq in E.
    assert (Hne : filtered df s <> []).
    { intros H. apply E, len_zero_iff, H. }
    destruct (series_min_defined _ Hne (filtered_year_present df s)) as [lo Hlo].
    destruct (series_max_defined _ Hne (filtered_year_present df s)) as [hi Hhi].
    rewrite Hlo, Hhi in *. simpl in *.
    eexists. split; [reflexivity|]. split; [reflexivity|].
    intros _. exists lo, hi. simpl.
    destruct Hb as (Hle & (r1 & Hr1 & Hy1) & (r2 & Hr2 & Hy2) & Hall).
    split; [reflexivity|].
    split; [exists r1; auto|]. split; [exists r2; auto|].
    split; [exact Hall|].
    apply filter_In in Hr1 as [_ Hm1]. apply filter_In in Hr2 as [_ Hm2].
    apply mask_true_iff in Hm1 as ((y1 & E1 & L1 & _) & _).
    apply mask_true_iff in Hm2 as ((y2 & E2 & _ & U2) & _).
    assert (y1 = lo) by congruence. assert (y2 = hi) by congruence.
    subst. repeat split; assumption.
Qed.

Lemma kpi_row_of_filtered_witness :
  kpi_row (filtered sample_df sample_sidebar)
  = Return {| total_protests := 4; countries := 2; regions := 2;
              violent_percent := float_of_Z 50;
              span := "2000–2002" |}
  /\ exists k,
       kpi_row (filtered sample_df sample_sidebar) = Return k
       /\ total_protests k = len (filtered sample_df sample_sidebar).
Proof.
  split; [vm_compute; reflexivity|].
  destruct (kpi_row_of_filtered sample_df sample_sidebar) as (k & H1 & H2 & _).
  exists k. split; assumption.
Defined.

(* ================================================================== *)
(** * Facts about [value_counts] tables *)

Lemma row_sum_perm (l l' : list nat) :
  Permutation l l' -> row_sum l = row_sum l'.
Proof.
  induction 1; simpl; lia.
Qed.

Lemma lookup_In_NoDup {V : Type} (k : string) (v : V)
    (t : list (string * V)) :
  NoDup (map fst t) -> In (k, v) t -> lookup string_dec k t = Some v.
Proof.
  induction t as [|[k' v'] rest IH]; simpl; intros Hnd Hin; [contradiction|].
  inversion Hnd as [|? ? Hnot Hrest]; subst.
  destruct (string_dec k k') as [->|Hn].
  - destruct Hin as [E|Hin]; [congruence|].
    exfalso. apply Hnot. apply in_map_iff. exists (k', v); auto.
  - destruct Hin as [E|Hin]; [congruence|]. apply IH; assumption.
Qed.

Lemma lookup_not_In {V : Type} (k : string) (t : list (string * V)) :
  ~ In k (map fst t) -> lookup string_dec k t = None.
Proof.
  induction t as [|[k' v'] rest IH]; simpl; intros Hnot; [reflexivity|].
  destruct (string_dec k k') as [->|Hn]; [exfalso; auto|].
  apply IH. intros H. apply Hnot. right; exact H.
Qed.

Lemma value_counts_In_entry (col : list (option string)) (v : string) :
  In v (dropna col) ->
  In (v, count_occ string_dec (dropna col) v) (value_counts col).
Proof.
  intros H. unfold value_counts. apply In_sort, in_map_iff.
  exists v. split; [reflexivity | apply In_unique, H].
Qed.

Lemma value_counts_lookup (col : list (option string)) (v : string) :
  lookup string_dec v (value_counts col)
  = if Nat.eqb (count_occ string_dec (dropna col) v) 0 then None
    else Some (count_occ string_dec (dropna col) v).
Proof.
  destruct (in_dec string_dec v (dropna col)) as [Hin|Hout].
  - rewrite (lookup_In_NoDup v _ _ (value_counts_NoDup col)
               (value_counts_In_entry col v Hin)).
    apply (count_occ_In string_dec) in Hin.
    destruct (Nat.eqb_spec (count_occ string_dec (dropna col) v) 0);
      [lia | reflexivity].
  - rewrite lookup_not_In; [|rewrite value_counts_In; exact Hout].
    apply (count_occ_not_In string_dec) in Hout. rewrite Hout. reflexivity.
Qed.

Lemma value_counts_total (col : list (option string)) :
  row_sum (map snd (value_counts col)) = List.length (dropna col).
Proof.
  unfold value_counts.
  rewrite (row_sum_perm _ _ (Permutation_map snd (sort_perm _ _))).
  rewrite map_map; simpl. apply row_sum_count_occ.
  - apply NoDup_unique.
  - intros x Hx. apply In_unique, Hx.
Qed.

Lemma value_counts_entry_iff (col : list (option string)) (v : string)
    (n : nat) :
  In (v, n) (value_counts col) <->
  n = count_occ string_dec (dropna col) v /\ (0 < n)%nat.
Proof.
  split.
  - intros H. pose proof (value_counts_entry col v n H) as E.
    split; [exact E|]. subst n.
    apply (count_occ_In string_dec), value_counts_In, in_map_iff.
    exists (v, count_occ string_dec (dropna col) v); auto.
  - intros [-> Hpos]. apply value_counts_In_entry.
    apply (count_occ_In string_dec). exact Hpos.
Qed.

Lemma count_where_column (col : Row -> option string) (f : list Row)
    (v : string) :
  count_occ string_dec (dropna (map col f)) v = count_where col v f.
Proof.
  rewrite count_occ_dropna_map. unfold count_where. f_equal.
  apply filter_ext. intros r. destruct (col r) as [v'|]; [|reflexivity].
  destruct (string_dec v' v) as [->|Hn].
  - rewrite String.eqb_refl. reflexivity.
  - apply String.eqb_neq in Hn. rewrite Hn. reflexivity.
Qed.

Lemma dropna_all_present {A : Type} (col : Row -> option A) (f : list Row) :
  Forall (fun r => exists v, col r = Some v) f ->
  List.length (dropna (map col f)) = List.length f.
Proof.
  induction 1 as [|r t (v & Hv) _ IH]; simpl; [reflexivity|].
  rewrite Hv; simpl. rewrite IH. reflexivity.
Qed.

(** X8.  Protests by region: each region of the filtered set is listed
    once with its number of rows, largest first, and the shares add up to
    the Total Protests KPI. *)
Theorem region_df_spec (df : list Row) (s : Sidebar) :
  let f := filtered df s in
  NoDup (map fst (region_df f))
  /\ StronglySorted (fun a b => (snd b <= snd a)%nat) (region_df f)
  /\ (forall g n, In (g, n) (region_df f) <->
                  n = count_where region g f /\ (0 < n)%nat)
  /\ Z.of_nat (row_sum (map snd (region_df f))) = len f.
Proof.
  intros f. subst f. unfold region_df.
  split; [apply value_counts_NoDup|].
  split; [apply value_counts_sorted|].
  split.
  - intros g n. rewrite value_counts_entry_iff, count_where_column.
    reflexivity.
  - rewrite value_counts_total. unfold len. f_equal.
    apply dropna_all_present, filtered_region_present.
Qed.

(** X9.  Top countries: at most 15 entries, largest count first, each
    with the number of rows of its country, and no country left out has
    more rows than one that is shown. *)
Theorem top_countries_spec (f : list Row) :
  (List.length (top_countries f) <= 15)%nat
  /\ NoDup (map fst (top_countries f))
  /\ StronglySorted (fun a b => (snd b <= snd a)%nat) (top_countries f)
  /\ (forall c n, In (c, n) (top_countries f) ->
                  n = country_total f c /\ (0 < n)%nat)
  /\ (forall c n c', In (c, n) (top_countries f) ->
                     ~ In c' (map fst (top_countries f)) ->
                     (country_total f c' <= n)%nat).
Proof.
  unfold top_countries.
  split; [rewrite length_firstn; lia|].
  split; [rewrite <- firstn_map; apply NoDup_firstn, value_counts_NoDup|].
  split.
  { pose proof (value_counts_sorted (map country f)) as H.
    rewrite <- (firstn_skipn 15) in H.
    revert H. generalize (firstn 15 (value_counts (map country f))).
    intros l. induction l as [|a t IH]; simpl; intros H; [constructor|].
    inversion H as [|? ? Ht Ha]; subst. constructor; [apply IH, Ht|].
    apply Forall_app in Ha as [Ha _]. exact Ha. }
  split.
  - intros c n H. apply In_firstn in H.
    apply value_counts_entry_iff in H as [-> Hpos].
    rewrite country_count in *. auto.
  - intros c n c' H Hout.
    assert (E : n = country_total f c).
    { apply In_firstn, value_counts_entry in H.
      rewrite country_count in H. exact H. }
    subst n. apply (tops_dominate f 15).
    + unfold top_countries_list. apply in_map_iff. exists (c, country_total f c).
      auto.
    + exact Hout.
Qed.

Lemma top_countries_spec_witness :
  top_countries (filtered sample_df sample_sidebar)
  = [("India", 3%nat); ("France", 1%nat)]
  /\ (List.length (top_countries (filtered sample_df sample_sidebar)) <= 15)%nat.
Proof.
  split; [vm_compute; reflexivity|].
  apply (top_countries_spec (filtered sample_df sample_sidebar)).
Defined.

(* ================================================================== *)
(** * Demands, responses, violence and size charts *)

Lemma dropna_map_Some {A : Type} (l : list A) : dropna (map Some l) = l.
Proof.
  induction l as [|a t IH]; simpl; [reflexivity|]. rewrite IH. reflexivity.
Qed.

Lemma dropna_demand_length (f : list Row) :
  List.length (dropna (map protesterdemand1 f)) = List.length (dropna_demand f).
Proof.
  unfold dropna_demand. induction f as [|r t IH]; simpl; [reflexivity|].
  unfold notna at 1. destruct (protesterdemand1 r); simpl; rewrite IH;
    reflexivity.
Qed.

(** X10.  The two demand charts count the same rows: in both, the counts
    add up to the number of filtered rows with a recorded demand, and the
    bar of a demand is its number of rows.  The same holds for the bars of
    the state responses. *)
Theorem demand_charts_agree (df : list Row) (s : Sidebar) :
  let f := filtered df s in
  row_sum (map snd (demand_df f)) = List.length (dropna_demand f)
  /\ row_sum (map snd (demand_df f)) = row_sum (map snd (demand_region_df f))
  /\ (forall d n, In (d, n) (demand_df f) <->
                  n = count_where protesterdemand1 d f /\ (0 < n)%nat)
  /\ (forall d n, In (d, n) (resp_df f) <->
                  n = count_where stateresponse1 d f /\ (0 < n)%nat).
Proof.
  intros f. subst f. unfold demand_df, resp_df.
  assert (E : row_sum (map snd (value_counts
                (map Some (dropna (map protesterdemand1 (filtered df s))))))
              = List.length (dropna_demand (filtered df s))).
  { rewrite value_counts_total, dropna_map_Some. apply dropna_demand_length. }
  split; [exact E|]. split.
  - rewrite E. unfold demand_region_df. rewrite groupby_size_total.
    symmetry. apply demand_region_keys_length, filtered_region_present.
  - split; intros d n; rewrite value_counts_entry_iff, dropna_map_Some,
      count_where_column; reflexivity.
Qed.

Lemma label_test (l : string) (r : Row) :
  violence_label r = map_violence_label (protesterviolence r) ->
  match violence_label r with
  | Some v' => String.eqb v' l
  | None => false
  end
  = if protesterviolence r =? 0 then String.eqb "Peaceful" l
    else if protesterviolence r =? 1 then String.eqb "Violent" l
    else false.
Proof.
  intros ->. unfold map_violence_label.
  destruct (protesterviolence r =? 0); [reflexivity|].
  destruct (protesterviolence r =? 1); reflexivity.
Qed.

Lemma count_label (l : string) (f : list Row) :
  Forall (fun r => violence_label r
                   = map_violence_label (protesterviolence r)) f ->
  count_where violence_label l f
  = List.length (filter (fun r =>
      if protesterviolence r =? 0 then String.eqb "Peaceful" l
      else if protesterviolence r =? 1 then String.eqb "Violent" l
      else false) f).
Proof.
  intros H. unfold count_where. f_equal. apply filter_ext_in.
  rewrite Forall_forall in H. intros r Hr. apply label_test, H, Hr.
Qed.

(** X11.  The violence pie of a table whose labels come from the loader:
    its only slices are "Violent", with the number of rows flagged 1, and
    "Peaceful", with the number of rows flagged 0; a row with any other
    flag is in neither. *)
Theorem viol_df_spec (f : list Row) :
  Forall (fun r => violence_label r
                   = map_violence_label (protesterviolence r)) f ->
  forall l n,
    In (l, n) (viol_df f) <->
    (0 < n)%nat
    /\ ((l = "Violent" /\ n = List.length (filter is_violent f))
        \/ (l = "Peaceful"
            /\ n = List.length (filter (fun r => protesterviolence r =? 0) f))).
Proof.
  intros H l n. unfold viol_df.
  rewrite value_counts_entry_iff, count_where_column, (count_label l f H).
  destruct (string_dec l "Violent") as [->|Hv].
  - rewrite (filter_ext _ is_violent).
    + split; [intros [-> Hp]; split; [exact Hp | left; auto]|].
      intros [Hp [[_ ->]|[E _]]]; [auto | discriminate].
    + intros r. unfold is_violent.
      destruct (protesterviolence r =? 0) eqn:E0.
      * apply Z.eqb_eq in E0. rewrite E0. reflexivity.
      * destruct (protesterviolence r =? 1); reflexivity.
  - destruct (string_dec l "Peaceful") as [->|Hp].
    + rewrite (filter_ext _ (fun r => protesterviolence r =? 0)).
      * split; [intros [-> Hpos]; split; [exact Hpos | right; auto]|].
        intros [Hpos [[E _]|[_ ->]]]; [discriminate | auto].
      * intros r. destruct (protesterviolence r =? 0); [reflexivity|].
        destruct (protesterviolence r =? 1); reflexivity.
    + rewrite (filter_ext _ (fun _ => false)).
      * assert (E : filter (fun _ : Row => false) f = []).
        { apply filter_nil_iff. reflexivity. }
        rewrite E. simpl. split; [intros [-> Hpos]; lia|].
        intros [_ [[E1 _]|[E1 _]]]; contradiction.
      * intros r. apply String.eqb_neq in Hv, Hp.
        rewrite String.eqb_sym in Hv. rewrite String.eqb_sym in Hp.
        rewrite Hv, Hp.
        destruct (protesterviolence r =? 0); [reflexivity|].
        destruct (protesterviolence r =? 1); reflexivity.
Qed.

Lemma viol_df_spec_witness :
  In ("Violent", 2%nat) (viol_df (filtered sample_df sample_sidebar))
  <-> (0 < 2)%nat
      /\ (("Violent" = "Violent"
           /\ 2%nat = List.length (filter is_violent
                                     (filtered sample_df sample_sidebar)))
          \/ ("Violent" = "Peaceful"
              /\ 2%nat = List.length
                           (filter (fun r => protesterviolence r =? 0)
                                   (filtered sample_df sample_sidebar)))).
Proof.
  apply (viol_df_spec (filtered sample_df sample_sidebar)).
  vm_compute. repeat (constructor; [reflexivity|]). constructor.
Defined.

Lemma dropna_reindex (cnt : string -> nat) (t : list (string * nat))
    (labels : list string) :
  (forall l, lookup string_dec l t
             = if Nat.eqb (cnt l) 0 then None else Some (cnt l)) ->
  dropna_values (reindex labels t)
  = map (fun l => (l, cnt l))
        (filter (fun l => negb (Nat.eqb (cnt l) 0)) labels).
Proof.
  intros H. unfold reindex.
  induction labels as [|l rest IH]; simpl; [reflexivity|].
  rewrite H. destruct (Nat.eqb (cnt l) 0); simpl; rewrite IH; reflexivity.
Qed.

Lemma category_count (f : list Row) (l : string) :
  count_occ string_dec
    (dropna (map participants_category
                 (filter (fun r => notna (participants_category r)) f))) l
  = count_where participants_category l f.
Proof.
  rewrite count_where_column. unfold count_where.
  rewrite filter_filter_absorb; [reflexivity|].
  intros r. unfold notna. destruct (participants_category r);
    simpl; congruence.
Qed.

(** X12.  The size chart: its bars are the buckets of the fixed list that
    have at least one filtered row, in the order of that list, each with
    its number of rows.  An empty bucket gets no bar, and a category that
    is not one of the six is not shown at all. *)
Theorem cat_df_spec (f : list Row) :
  cat_df f
  = map (fun l => (l, count_where participants_category l f))
        (filter (fun l => negb (Nat.eqb
                                  (count_where participants_category l f) 0))
                cat_order).
Proof.
  unfold cat_df. apply dropna_reindex. intros l.
  rewrite value_counts_lookup, category_count. reflexivity.
Qed.

(* ================================================================== *)
(** * Time series, trend totals and the data table *)

Lemma groupby_size_entry_iff {K : Type}
    (eq_dec : forall x y : K, {x = y} + {x <> y}) (leb : K -> K -> bool)
    (keys : list K) (k : K) (n : nat) :
  In (k, n) (groupby_size eq_dec leb keys) <->
  n = count_occ eq_dec keys k /\ (0 < n)%nat.
Proof.
  unfold groupby_size. rewrite in_map_iff. split.
  - intros (k' & E & Hin). inversion E; subst.
    split; [reflexivity|].
    apply (count_occ_In eq_dec). apply In_sort, In_unique in Hin. exact Hin.
  - intros [-> Hpos]. exists k. split; [reflexivity|].
    apply In_sort, In_unique, (count_occ_In eq_dec). exact Hpos.
Qed.

Lemma year_region_key_test (y : Z) (g : string) (r : Row) :
  match key2 (year r) (region r) with
  | Some k' => if year_region_dec k' (y, g) then true else false
  | None => false
  end
  = match year r, region r with
    | Some y', Some g' => (y' =? y) && String.eqb g' g
    | _, _ => false
    end.
Proof.
  destruct (year r) as [y'|], (region r) as [g'|]; cbn [key2];
    try reflexivity.
  destruct (year_region_dec (y', g') (y, g)) as [E|E].
  - inversion E; subst. rewrite Z.eqb_refl, String.eqb_refl. reflexivity.
  - destruct (Z.eqb_spec y' y) as [->|]; [|reflexivity].
    destruct (String.eqb_spec g' g) as [->|]; [congruence | reflexivity].
Qed.

Lemma year_region_keys_length (f : list Row) :
  Forall (fun r => exists y, year r = Some y) f ->
  Forall (fun r => exists g, region r = Some g) f ->
  List.length (dropna (map (fun r => key2 (year r) (region r)) f))
  = List.length f.
Proof.
  induction 1 as [|r t (y & Hy) _ IH]; intros Hg; [reflexivity|].
  inversion Hg as [|? ? (g & Eg) Hg']; subst.
  simpl. rewrite Hy, Eg; simpl. rewrite IH; auto.
Qed.

(** X13.  Protests over time: one point per year and region that occur
    together in the filtered set, carrying the number of such rows; the
    points come in order of year and add up to the Total Protests KPI. *)
Theorem time_df_spec (df : list Row) (s : Sidebar) :
  let f := filtered df s in
  StronglySorted (fun a b => fst (fst a) <= fst (fst b)) (time_df f)
  /\ NoDup (map fst (time_df f))
  /\ (forall y g n, In (y, g, n) (time_df f) <->
                    n = year_region_count f y g /\ (0 < n)%nat)
  /\ row_sum (map snd (time_df f)) = List.length f.
Proof.
  intros f. subst f. unfold time_df.
  split.
  { eapply StronglySorted_weaken; [|apply sort_sorted].
    - intros a b H. apply Z.leb_le, H.
    - intros a b. rewrite !Z.leb_le. lia.
    - intros a b c. rewrite !Z.leb_le. lia. }
  split.
  { eapply Permutation_NoDup;
      [apply Permutation_sym, Permutation_map, sort_perm|].
    apply groupby_size_NoDup. }
  split.
  - intros y g n. rewrite In_sort, groupby_size_entry_iff.
    rewrite count_occ_dropna_map.
    rewrite (filter_ext _ _ (year_region_key_test y g)). reflexivity.
  - rewrite (row_sum_perm _ _ (Permutation_map snd (sort_perm _ _))).
    rewrite groupby_size_total.
    apply year_region_keys_length;
      [apply filtered_year_present | apply filtered_region_present].
Qed.

Lemma sum_of_nat {A : Type} (a : A -> nat) (ys : list A) :
  sum (map (fun y => Z.of_nat (a y)) ys) = Z.of_nat (row_sum (map a ys)).
Proof.
  induction ys as [|y t IH]; simpl; [reflexivity|].
  rewrite IH. lia.
Qed.

Lemma filter_true {A : Type} (l : list A) : filter (fun _ => true) l = l.
Proof.
  induction l as [|a t IH]; simpl; [reflexivity|]. rewrite IH. reflexivity.
Qed.

(** X14.  The trend table has one record per year of the filtered set, in
    increasing order of year, and the totals of its records add up to the
    Total Protests KPI. *)
Theorem viol_trend_totals (df : list Row) (s : Sidebar) :
  let f := filtered df s in
  StronglySorted Z.lt (map vt_year (viol_trend f))
  /\ (forall y, In y (map vt_year (viol_trend f)) <->
                exists r, In r f /\ year r = Some y)
  /\ sum (map total (viol_trend f)) = len f.
Proof.
  intros f. subst f. unfold viol_trend.
  set (ys := sort Z.leb
               (unique Z.eq_dec (dropna (map year (filtered df s))))).
  assert (Hys : map vt_year (map (viol_trend_row (filtered df s)) ys) = ys).
  { rewrite map_map. simpl. apply map_id. }
  rewrite Hys. split.
  { apply sorted_distinct_increasing.
    - apply sort_sorted.
      + intros x y. rewrite !Z.leb_le. lia.
      + intros x y z. rewrite !Z.leb_le. lia.
    - apply NoDup_sort, NoDup_unique. }
  split.
  { intros y. unfold ys. rewrite In_sort, In_unique. apply In_year_column. }
  rewrite map_map. unfold viol_trend_row; simpl. unfold len at 1.
  rewrite (sum_of_nat (fun y => List.length
                                  (filter (in_year y) (filtered df s)))).
  unfold len. f_equal.
  transitivity (List.length (filter (fun _ => true) (filtered df s)));
    [|rewrite filter_true; reflexivity].
  apply (row_sum_by_year (fun _ => true)).
  - apply NoDup_sort, NoDup_unique.
  - intros r Hr _. pose proof (filtered_year_present df s) as Hy.
    rewrite Forall_forall in Hy. destruct (Hy r Hr) as (y & E).
    exists y. split; [|exact E].
    unfold ys. apply In_sort, In_unique, In_year_column. eauto.
Qed.

Lemma timestamp_leb_iff (a b : Timestamp) :
  timestamp_leb a b = true <-> ts_le a b.
Proof.
  unfold timestamp_leb, lex_leb, ts_le; simpl.
  destruct (Z.compare_spec (ts_year a) (ts_year b));
    destruct (Z.compare_spec (ts_month a) (ts_month b));
    rewrite ?Z.leb_le; split; intros; try discriminate; try reflexivity; lia.
Qed.

Lemma later_first_iff (a b : DisplayRow) :
  later_first a b = true <-> date_order a b.
Proof.
  unfold later_first, date_order.
  destruct (d_start_date a), (d_start_date b);
    rewrite ?timestamp_leb_iff; split; intros; try discriminate;
    try reflexivity; try exact I; try contradiction; assumption.
Qed.

Lemma date_order_total (a b : DisplayRow) :
  later_first a b = true \/ later_first b a = true.
Proof.
  rewrite !later_first_iff. unfold date_order, ts_le.
  destruct (d_start_date a), (d_start_date b); auto. lia.
Qed.

Lemma date_order_trans (a b c : DisplayRow) :
  later_first a b = true -> later_first b c = true -> later_first a c = true.
Proof.
  rewrite !later_first_iff. unfold date_order, ts_le.
  destruct (d_start_date a), (d_start_date b), (d_start_date c);
    auto; try contradiction. lia.
Qed.

(** X15.  The data table holds every filtered row once, reduced to the
    display columns; rows with a start date come latest first, and the
    rows without one come after all of them. *)
Theorem data_table_spec (f : list Row) :
  Permutation (data_table f) (map display_cols f)
  /\ List.length (data_table f) = List.length f
  /\ StronglySorted date_order (data_table f).
Proof.
  unfold data_table, sort_values_start_date_desc.
  split; [apply sort_perm|]. split.
  - rewrite length_sort, length_map. reflexivity.
  - eapply StronglySorted_weaken;
      [|apply sort_sorted; [apply date_order_total | apply date_order_trans]].
    intros a b. apply later_first_iff.
Qed.

(** X16.  The country multiselect offers, once each, the countries of
    the rows whose region is selected: with no region selected it offers
    nothing, and selecting fewer regions never adds a country. *)
Theorem available_countries_spec (df : list Row) (regions : list string) :
  NoDup (available_countries df regions)
  /\ (forall c, In c (available_countries df regions) <->
                exists r g, In r df /\ country r = Some c
                            /\ region r = Some g /\ In g regions)
  /\ available_countries df [] = []
  /\ (forall regions', incl regions regions' ->
        incl (available_countries df regions)
             (available_countries df regions')).
Proof.
  split; [apply options_of_NoDup|].
  split; [apply available_countries_In|]. split.
  - destruct (available_countries df []) as [|c t] eqn:E; [reflexivity|].
    assert (H : In c (available_countries df [])) by (rewrite E; left; auto).
    apply available_countries_In in H as (r & g & _ & _ & _ & []).
  - intros regions' Hincl c Hc.
    apply available_countries_In in Hc as (r & g & H1 & H2 & H3 & H4).
    apply available_countries_In. exists r, g. auto.
Qed.

(* ================================================================== *)
(** * Empty selections *)

(** X17.  Deselecting every demand does not empty the view: what stays
    is exactly the rows with no recorded demand that pass the rest of the
    filter. *)
Theorem no_demand_selected (df : list Row) (s : Sidebar) (r : Row) :
  In r (filtered df (with_demands s [])) <->
  In r (filtered df s) /\ protesterdemand1 r = None.
Proof.
  unfold filtered. rewrite !filter_In. split.
  - intros [Hin Hm].
    assert (Hd : protesterdemand1 r = None).
    { apply mask_true_iff in Hm as (_ & _ & _ & [(v & _ & [])|Hd] & _).
      exact Hd. }
    rewrite (demand_passthrough s [] r Hd) in Hm. auto.
  - intros [[Hin Hm] Hd]. split; [exact Hin|].
    rewrite (demand_passthrough s [] r Hd). exact Hm.
Qed.

(** X18.  Deselecting every region, or every country, or a year range
    with its ends crossed, leaves no row at all. *)
Theorem nothing_selected (df : list Row) (s : Sidebar) :
  selected_regions s = [] \/ selected_countries s = []
  \/ snd (year_range s) < fst (year_range s) ->
  filtered df s = [].
Proof.
  intros H. unfold filtered. apply filter_nil_iff. intros r _.
  destruct (mask s r) eqn:E; [|reflexivity]. exfalso.
  apply mask_true_iff in E
    as ((y & _ & H1 & H2) & (g & _ & Hg) & (c & _ & Hc) & _).
  destruct H as [H|[H|H]].
  - rewrite H in Hg. contradiction.
  - rewrite H in Hc. contradiction.
  - lia.
Qed.

Lemma nothing_selected_witness :
  filtered sample_df no_region_sidebar = [].
Proof.
  apply (nothing_selected sample_df no_region_sidebar).
  left; reflexivity.
Defined.
